(** * Trace ingestion: spans, events and line runs

    A shallow embedding of [promptflow/_sdk/entities/_trace.py]: the [Span]
    entity with its event externalisation and export mapping, the [LineRun]
    aggregate with its identity resolution and reconstruction from a span,
    and the create-or-update protocol that keeps one line run per id.

    Python objects are records, dictionaries used as open maps are [gmap]s,
    exceptions are the [Raise] branch of [result], and the three tables the
    entities are written to are lists of rows threaded through the calls. *)

From stdpp Require Import base option list gmap strings countable pretty.
From Stdlib Require Import ZArith Lia Ascii.

Local Open Scope Z_scope.
Local Open Scope list_scope.

(** ** Exceptions and results *)

(** The exceptions the embedded code can raise. [KeyError] carries the key
    that was looked up. *)
Inductive exception : Type :=
  | KeyError (key : string)
  | ValueError
  | TypeError
  | JSONDecodeError
  | LineRunNotFoundError
  | EventNotFoundError.

Inductive result (A : Type) : Type :=
  | Ok (a : A)
  | Raise (e : exception).

Arguments Ok {A} a.
Arguments Raise {A} e.

#[global] Instance exception_eq_dec : EqDecision exception.
Proof. solve_decision. Defined.

#[global] Instance result_ret : MRet result := fun A a => Ok a.

#[global] Instance result_bind : MBind result := fun A B f m =>
  match m with
  | Ok a => f a
  | Raise e => Raise e
  end.

#[global] Instance result_fmap : FMap result := fun A B f m =>
  match m with
  | Ok a => Ok (f a)
  | Raise e => Raise e
  end.

(** [d[key]] on a dictionary: the value, or [KeyError]. *)
Definition getitem {V : Type} (d : gmap string V) (key : string) : result V :=
  match d !! key with
  | Some v => Ok v
  | None => Raise (KeyError key)
  end.

(** ** Values *)

(** A flattened attribute value. The decoder leaves strings (integers of the
    wire format arrive as decimal strings) and callers may pass integers;
    booleans and floating point numbers are not modelled. *)
Inductive attr_value : Type :=
  | AStr (s : string)
  | AInt (z : Z).

#[global] Instance attr_value_eq_dec : EqDecision attr_value.
Proof. solve_decision. Defined.

#[global] Instance attr_value_countable : Countable attr_value.
Proof.
  refine (inj_countable'
            (fun v => match v with AStr s => inl s | AInt z => inr z end)
            (fun x => match x with inl s => AStr s | inr z => AInt z end) _).
  intros []; reflexivity.
Defined.

(** A decoded JSON document, the result of [json.loads] on a payload. *)
#[warnings="-register-all"]
Inductive json : Type :=
  | JNull
  | JBool (b : bool)
  | JNum (z : Z)
  | JStr (s : string)
  | JArr (items : list json)
  | JObj (members : list (string * json)).

(** A [datetime.datetime], as microseconds since the epoch. *)
Definition datetime : Type := Z.

(** [(t1 - t0).total_seconds()], kept as the exact number of microseconds:
    the floating point division by 10^6 is not modelled. *)
Definition total_seconds (t1 t0 : datetime) : Z := t1 - t0.

(** One event of a span: the dictionary with the keys of
    [SpanEventFieldName] that the decoder builds. *)
Module SpanEvent.
Record t : Type := Build {
  name : string;
  timestamp : string;
  attributes : gmap string attr_value;
}.

(** [event[SpanEventFieldName.ATTRIBUTES] = attrs] *)
Definition set_attributes (event : t) (attrs : gmap string attr_value) : t :=
  {| name := name event; timestamp := timestamp event; attributes := attrs |}.
End SpanEvent.

#[global] Instance span_event_eq_dec : EqDecision SpanEvent.t.
Proof. solve_decision. Defined.

#[global] Instance span_event_countable : Countable SpanEvent.t.
Proof.
  refine (inj_countable'
            (fun e => (SpanEvent.name e, SpanEvent.timestamp e, SpanEvent.attributes e))
            (fun x => match x with (n, ts, a) => SpanEvent.Build n ts a end) _).
  intros []; reflexivity.
Defined.

Module SpanLink.
Record t : Type := Build {
  context : gmap string string;
  attributes : gmap string attr_value;
}.
End SpanLink.

Module SpanStatus.
Record t : Type := Build {
  status_code : string;
  description : string;
}.
End SpanStatus.

(** [cumulative_token_count], the dictionary with the three keys of
    [CumulativeTokenCountFieldName]. *)
Module TokenCount.
Record t : Type := Build {
  completion : Z;
  prompt : Z;
  total : Z;
}.
End TokenCount.

(** ** Constants

    Modelled from the spec: the field-name constants of [promptflow._constants]
    and [promptflow._sdk._constants] are imported by the source and declared
    outside it. The spec names them only in words (the explicit line-run-id
    attribute, the referenced line run id, the referenced batch run id, the
    line number, the total-token attribute, the two reserved event names, the
    default collection, the Running status); the strings below stand for them.
    No theorem depends on a spelling, only on two different constants being
    different keys. *)

Module SpanAttributeFieldName.
Definition LINE_RUN_ID : string := "line_run_id".
Definition REFERENCED_LINE_RUN_ID : string := "referenced.line_run_id".
Definition REFERENCED_BATCH_RUN_ID : string := "referenced.batch_run_id".
Definition BATCH_RUN_ID : string := "batch_run_id".
Definition LINE_NUMBER : string := "line_number".
Definition SESSION_ID : string := "session_id".
Definition SPAN_TYPE : string := "span_type".
Definition COMPLETION_TOKEN_COUNT : string := "__computed__.cumulative_token_count.completion".
Definition PROMPT_TOKEN_COUNT : string := "__computed__.cumulative_token_count.prompt".
Definition TOTAL_TOKEN_COUNT : string := "__computed__.cumulative_token_count.total".
End SpanAttributeFieldName.

Module SpanResourceFieldName.
Definition ATTRIBUTES : string := "attributes".
End SpanResourceFieldName.

Module SpanResourceAttributesFieldName.
Definition COLLECTION : string := "collection".
Definition EXPERIMENT_NAME : string := "experiment.name".
End SpanResourceAttributesFieldName.

Definition SPAN_EVENTS_ATTRIBUTES_EVENT_ID : string := "event.id".
Definition SPAN_EVENTS_ATTRIBUTE_PAYLOAD : string := "payload".
Definition SPAN_EVENTS_NAME_PF_INPUTS : string := "promptflow.function.inputs".
Definition SPAN_EVENTS_NAME_PF_OUTPUT : string := "promptflow.function.output".
Definition TRACE_DEFAULT_COLLECTION : string := "default".
Definition RUNNING_LINE_RUN_STATUS : string := "Running".

(** ** The Python library functions the code calls

    [uuid4 n] is [str(uuid.uuid4())] at the [n]-th draw of the process;
    [json_dumps] and [json_loads_event] are [json.dumps] and [json.loads] at
    the type of an event, [json_loads] is [json.loads] on a payload ([None]
    when the text is not JSON); [int_of_str] is [int] on a string ([None] for
    [ValueError]); [isoformat] is [datetime.isoformat]. *)
Class Python : Type := {
  uuid4 : nat -> string;
  json_dumps : SpanEvent.t -> string;
  json_loads_event : string -> option SpanEvent.t;
  json_loads : string -> option json;
  int_of_str : string -> option Z;
  isoformat : datetime -> string;
}.

(** [int(v)] on an attribute value. *)
Definition py_int `{Python} (v : attr_value) : result Z :=
  match v with
  | AInt z => Ok z
  | AStr s =>
      match int_of_str s with
      | Some z => Ok z
      | None => Raise ValueError
      end
  end.

(** [json.loads(v)] on an attribute value, as the optional value the caller
    keeps: the document [null] is Python's [None], and an integer is not a
    document. *)
Definition py_json_loads `{Python} (v : attr_value) : result (option json) :=
  match v with
  | AStr s =>
      match json_loads s with
      | Some JNull => Ok None
      | Some j => Ok (Some j)
      | None => Raise JSONDecodeError
      end
  | AInt _ => Raise TypeError
  end.

(** ** The tables *)

(** Modelled from the spec: [promptflow._sdk._orm.trace.LineRun] is not part
    of the source. Section 6 gives its contract: [get(line_run_id)] fails
    with NotFound if absent, [create(line_run)], [update(line_run)] and
    [find_by_run_and_line_number(run, line_number)], which returns a line run
    or none. The table is the list of its rows in insertion order: [persist]
    (create) adds a row, [_update] overwrites the rows of the given id with
    the given values, and the lookups return the first matching row. *)
Module ORMLineRun.
Record t : Type := Build {
  line_run_id : attr_value;
  trace_id : string;
  root_span_id : option string;
  inputs : option json;
  outputs : option json;
  start_time : datetime;
  end_time : option datetime;
  status : string;
  duration : option Z;
  name : option string;
  kind : option attr_value;
  cumulative_token_count : option TokenCount.t;
  parent_id : option attr_value;
  run : option attr_value;
  line_number : option attr_value;
  experiment : option attr_value;
  session_id : option attr_value;
  collection : attr_value;
}.

Abbreviation table := (list t).

Definition has_id (id : attr_value) (row : t) : bool :=
  bool_decide (line_run_id row = id).

Definition get (id : attr_value) (tbl : table) : result t :=
  match List.find (has_id id) tbl with
  | Some row => Ok row
  | None => Raise LineRunNotFoundError
  end.

Definition persist (self : t) (tbl : table) : table := tbl ++ [self].

Definition _update (self : t) (tbl : table) : table :=
  List.map (fun row => if has_id (line_run_id self) row then self else row) tbl.

Definition _get_with_run_and_line_number (r n : attr_value) (tbl : table) : option t :=
  List.find (fun row => bool_decide (run row = Some r /\ line_number row = Some n)) tbl.

(** The number of rows stored under an id. *)
Definition rows (id : attr_value) (tbl : table) : nat :=
  length (List.filter (has_id id) tbl).
End ORMLineRun.

(** Modelled from the spec: [promptflow._sdk._orm.trace.Event] is not part of
    the source. Section 6 gives its contract: [persist(event_id, trace_id,
    span_id, payload)] and [get(event_id)], which fails with NotFound on an
    unknown id; section 3 adds that a stored event is never mutated. The
    table is the list of its rows; [get] returns the first row of the id. *)
Module ORMEvent.
Record t : Type := Build {
  event_id : string;
  trace_id : string;
  span_id : string;
  data : string;
}.

Abbreviation table := (list t).

Definition persist (self : t) (tbl : table) : table := tbl ++ [self].

Definition get (id : string) (tbl : table) : result t :=
  match List.find (fun row => bool_decide (event_id row = id)) tbl with
  | Some row => Ok row
  | None => Raise EventNotFoundError
  end.
End ORMEvent.

(** Modelled from the spec: [promptflow._sdk._orm.trace.Span] is not part of
    the source. Section 6 gives [persist(span)]; the table is the list of the
    rows persisted so far. *)
Module ORMSpan.
Record t : Type := Build {
  trace_id : string;
  span_id : string;
  name : string;
  context : gmap string string;
  kind : string;
  parent_id : option string;
  start_time : datetime;
  end_time : datetime;
  status : SpanStatus.t;
  attributes : option (gmap string attr_value);
  links : option (list SpanLink.t);
  events : option (list SpanEvent.t);
  resource : gmap string (gmap string attr_value);
}.

Abbreviation table := (list t).

Definition persist (self : t) (tbl : table) : table := tbl ++ [self].
End ORMSpan.

(** What a call can read and change besides its arguments: the three tables
    and the number of identifiers drawn from [uuid.uuid4] so far. *)
Record World : Type := mkWorld {
  line_runs : ORMLineRun.table;
  event_rows : ORMEvent.table;
  span_rows : ORMSpan.table;
  uuid_calls : nat;
}.

Definition set_line_runs (w : World) (tbl : ORMLineRun.table) : World :=
  {| line_runs := tbl; event_rows := event_rows w;
     span_rows := span_rows w; uuid_calls := uuid_calls w |}.

(** ** Event *)

Module Event.
(** [Event.get(event_id)]. The id comes out of an event's attributes; no row
    is stored under an integer. *)
Definition get `{Python} (event_id : attr_value) (tbl : ORMEvent.table)
  : result SpanEvent.t :=
  match event_id with
  | AStr id =>
      orm_event ← ORMEvent.get id tbl;
      match json_loads_event (ORMEvent.data orm_event) with
      | Some event => Ok event
      | None => Raise JSONDecodeError
      end
  | AInt _ => Raise EventNotFoundError
  end.
End Event.

(** ** Span: the object *)

(** The [Span] object after [__init__]. Its events are separate
    dictionaries, one per wire event as the decoder builds them, so an
    update of one event is not seen through another. *)
Record span : Type := mkSpan {
  trace_id : string;
  span_id : string;
  name : string;
  context : gmap string string;
  kind : string;
  parent_id : option string;
  start_time : datetime;
  end_time : datetime;
  status : SpanStatus.t;
  attributes : gmap string attr_value;
  links : list SpanLink.t;
  events : list SpanEvent.t;
  resource : gmap string (gmap string attr_value);
  _external_event_ids : list attr_value;
}.

(** [self.events = evs] and [self._external_event_ids = ids] *)
Definition set_events (self : span) (evs : list SpanEvent.t) (ids : list attr_value)
  : span :=
  {| trace_id := trace_id self; span_id := span_id self; name := name self;
     context := context self; kind := kind self; parent_id := parent_id self;
     start_time := start_time self; end_time := end_time self;
     status := status self; attributes := attributes self;
     links := links self; events := evs; resource := resource self;
     _external_event_ids := ids |}.

(** ** LineRun *)

Module LineRun.
(* The span's fields that the line run's own fields shadow below. *)
#[local] Abbreviation span_trace_id := trace_id (only parsing).
#[local] Abbreviation span_start_time := start_time (only parsing).
#[local] Abbreviation span_end_time := end_time (only parsing).
#[local] Abbreviation span_status := status (only parsing).
#[local] Abbreviation span_name := name (only parsing).
#[local] Abbreviation span_kind := kind (only parsing).

Record t : Type := Build {
  line_run_id : attr_value;
  trace_id : string;
  root_span_id : option string;
  inputs : option json;
  outputs : option json;
  start_time : datetime;
  end_time : option datetime;
  status : string;
  duration : option Z;
  name : option string;
  kind : option attr_value;
  collection : attr_value;
  cumulative_token_count : option TokenCount.t;
  parent_id : option attr_value;
  run : option attr_value;
  line_number : option attr_value;
  experiment : option attr_value;
  session_id : option attr_value;
}.

(** The dictionary [_parse_common_args] returns. *)
Record common_args : Type := CommonArgs {
  ca_line_run_id : attr_value;
  ca_trace_id : string;
  ca_start_time : datetime;
  ca_collection : attr_value;
  ca_parent_id : option attr_value;
  ca_run : option attr_value;
  ca_line_number : option attr_value;
  ca_experiment : option attr_value;
  ca_session_id : option attr_value;
}.

Section Methods.
Context `{Python}.

Definition _determine_line_run_id (s : span) : attr_value :=
  match attributes s !! SpanAttributeFieldName.LINE_RUN_ID with
  | Some id => id
  | None => AStr (span_trace_id s)
  end.

Definition _determine_parent_id (s : span) (tbl : ORMLineRun.table)
  : result (option attr_value) :=
  match attributes s !! SpanAttributeFieldName.REFERENCED_LINE_RUN_ID with
  | Some id => Ok (Some id)
  | None =>
      match attributes s !! SpanAttributeFieldName.REFERENCED_BATCH_RUN_ID with
      | Some batch_run =>
          n ← getitem (attributes s) SpanAttributeFieldName.LINE_NUMBER;
          let line_run := ORMLineRun._get_with_run_and_line_number batch_run n tbl in
          Ok (ORMLineRun.line_run_id <$> line_run)
      | None => Ok None
      end
  end.

Definition _parse_common_args (s : span) (tbl : ORMLineRun.table)
  : result common_args :=
  let line_run_id := _determine_line_run_id s in
  let resource_attributes :=
    default ∅ (resource s !! SpanResourceFieldName.ATTRIBUTES) in
  let collection :=
    default (AStr TRACE_DEFAULT_COLLECTION)
      (resource_attributes !! SpanResourceAttributesFieldName.COLLECTION) in
  let experiment :=
    resource_attributes !! SpanResourceAttributesFieldName.EXPERIMENT_NAME in
  let run := attributes s !! SpanAttributeFieldName.BATCH_RUN_ID in
  let line_number := attributes s !! SpanAttributeFieldName.LINE_NUMBER in
  let session_id := attributes s !! SpanAttributeFieldName.SESSION_ID in
  parent_id ← _determine_parent_id s tbl;
  Ok {| ca_line_run_id := line_run_id; ca_trace_id := span_trace_id s;
        ca_start_time := span_start_time s; ca_collection := collection;
        ca_parent_id := parent_id; ca_run := run;
        ca_line_number := line_number; ca_experiment := experiment;
        ca_session_id := session_id |}.

Definition _from_non_root_span (s : span) (tbl : ORMLineRun.table) : result t :=
  args ← _parse_common_args s tbl;
  Ok {| root_span_id := None; inputs := None; outputs := None;
        end_time := None; status := RUNNING_LINE_RUN_STATUS;
        duration := None; name := None; kind := None;
        cumulative_token_count := None;
        line_run_id := ca_line_run_id args; trace_id := ca_trace_id args;
        start_time := ca_start_time args; collection := ca_collection args;
        parent_id := ca_parent_id args; run := ca_run args;
        line_number := ca_line_number args; experiment := ca_experiment args;
        session_id := ca_session_id args |}.

(** The loop shared by [_get_inputs_from_span] and [_get_outputs_from_span]:
    the payload of the first event of the given name, decoded. *)
Fixpoint payload_of_first (event_name : string) (evs : list SpanEvent.t)
  : result (option json) :=
  match evs with
  | [] => Ok None
  | event :: rest =>
      if bool_decide (SpanEvent.name event = event_name) then
        payload ← getitem (SpanEvent.attributes event) SPAN_EVENTS_ATTRIBUTE_PAYLOAD;
        py_json_loads payload
      else payload_of_first event_name rest
  end.

Definition _get_inputs_from_span (s : span) : result (option json) :=
  payload_of_first SPAN_EVENTS_NAME_PF_INPUTS (events s).

Definition _get_outputs_from_span (s : span) : result (option json) :=
  payload_of_first SPAN_EVENTS_NAME_PF_OUTPUT (events s).

(** [int(span.attributes.get(key, 0))] *)
Definition token_count (s : span) (key : string) : result Z :=
  py_int (default (AInt 0) (attributes s !! key)).

Definition _from_root_span (s : span) (tbl : ORMLineRun.table) : result t :=
  args ← _parse_common_args s tbl;
  completion_token_count ← token_count s SpanAttributeFieldName.COMPLETION_TOKEN_COUNT;
  prompt_token_count ← token_count s SpanAttributeFieldName.PROMPT_TOKEN_COUNT;
  total_token_count ← token_count s SpanAttributeFieldName.TOTAL_TOKEN_COUNT;
  let cumulative_token_count :=
    if bool_decide (total_token_count > 0) then
      Some {| TokenCount.completion := completion_token_count;
              TokenCount.prompt := prompt_token_count;
              TokenCount.total := total_token_count |}
    else None in
  span_inputs ← _get_inputs_from_span s;
  span_outputs ← _get_outputs_from_span s;
  Ok {| root_span_id := Some (span_id s);
        inputs := span_inputs; outputs := span_outputs;
        end_time := Some (span_end_time s);
        status := SpanStatus.status_code (span_status s);
        duration := Some (total_seconds (span_end_time s) (span_start_time s));
        name := Some (span_name s);
        kind := Some (default (AStr (span_kind s))
                        (attributes s !! SpanAttributeFieldName.SPAN_TYPE));
        cumulative_token_count := cumulative_token_count;
        line_run_id := ca_line_run_id args; trace_id := ca_trace_id args;
        start_time := ca_start_time args; collection := ca_collection args;
        parent_id := ca_parent_id args; run := ca_run args;
        line_number := ca_line_number args; experiment := ca_experiment args;
        session_id := ca_session_id args |}.

Definition _to_orm_object (self : t) : ORMLineRun.t :=
  {| ORMLineRun.line_run_id := line_run_id self;
     ORMLineRun.trace_id := trace_id self;
     ORMLineRun.root_span_id := root_span_id self;
     ORMLineRun.inputs := inputs self;
     ORMLineRun.outputs := outputs self;
     ORMLineRun.start_time := start_time self;
     ORMLineRun.end_time := end_time self;
     ORMLineRun.status := status self;
     ORMLineRun.duration := duration self;
     ORMLineRun.name := name self;
     ORMLineRun.kind := kind self;
     ORMLineRun.cumulative_token_count := cumulative_token_count self;
     ORMLineRun.parent_id := parent_id self;
     ORMLineRun.run := run self;
     ORMLineRun.line_number := line_number self;
     ORMLineRun.experiment := experiment self;
     ORMLineRun.session_id := session_id self;
     ORMLineRun.collection := collection self |}.

(** [try: ORMLineRun.get(...) except LineRunNotFoundError: persist()] *)
Definition _try_create (self : t) (tbl : ORMLineRun.table)
  : result ORMLineRun.table :=
  match ORMLineRun.get (line_run_id self) tbl with
  | Ok _ => Ok tbl
  | Raise LineRunNotFoundError => Ok (ORMLineRun.persist (_to_orm_object self) tbl)
  | Raise e => Raise e
  end.

(** [try: ORMLineRun.get(...); _update() except LineRunNotFoundError: persist()] *)
Definition _try_update (self : t) (tbl : ORMLineRun.table)
  : result ORMLineRun.table :=
  match ORMLineRun.get (line_run_id self) tbl with
  | Ok _ => Ok (ORMLineRun._update (_to_orm_object self) tbl)
  | Raise LineRunNotFoundError => Ok (ORMLineRun.persist (_to_orm_object self) tbl)
  | Raise e => Raise e
  end.

Definition _from_orm_object (obj : ORMLineRun.t) : t :=
  {| line_run_id := ORMLineRun.line_run_id obj;
     trace_id := ORMLineRun.trace_id obj;
     root_span_id := ORMLineRun.root_span_id obj;
     inputs := ORMLineRun.inputs obj;
     outputs := ORMLineRun.outputs obj;
     start_time := ORMLineRun.start_time obj;
     end_time := ORMLineRun.end_time obj;
     status := ORMLineRun.status obj;
     duration := ORMLineRun.duration obj;
     name := ORMLineRun.name obj;
     kind := ORMLineRun.kind obj;
     cumulative_token_count := ORMLineRun.cumulative_token_count obj;
     parent_id := ORMLineRun.parent_id obj;
     run := ORMLineRun.run obj;
     line_number := ORMLineRun.line_number obj;
     experiment := ORMLineRun.experiment obj;
     session_id := ORMLineRun.session_id obj;
     collection := ORMLineRun.collection obj |}.

(** A [LineRun] object together with its [evaluations], which the table
    does not hold: [None], or the dictionary from the name of an evaluation
    to the line run of that evaluation. A name is whatever [run] or [name]
    of the evaluation holds, [None] included. *)
#[warnings="-register-all"]
Inductive object : Type :=
  Object (fields : t) (evaluations : option (gmap (option attr_value) object)).

Definition fields (self : object) : t :=
  match self with Object f _ => f end.

Definition evaluations (self : object)
  : option (gmap (option attr_value) object) :=
  match self with Object _ e => e end.

(** [evaluation.run if evaluation.run is not None else evaluation.name] *)
Definition eval_name (evaluation : object) : option attr_value :=
  match run (fields evaluation) with
  | Some r => Some r
  | None => AStr <$> name (fields evaluation)
  end.

(** One turn of the loop of [_append_evaluations]. *)
Definition append_evaluation (self evaluation : object) : object :=
  let current := default ∅ (evaluations self) in
  Object (fields self) (Some (<[eval_name evaluation := evaluation]> current)).

Definition _append_evaluations (self : object) (evals : list object) : object :=
  fold_left append_evaluation evals self.
End Methods.
End LineRun.

(** ** The wire format *)

(** [bytes.hex()]: two lowercase hexadecimal digits for every byte. *)
Definition hex_digit (n : N) : ascii :=
  match n with
  | 0%N => "0" | 1%N => "1" | 2%N => "2" | 3%N => "3"
  | 4%N => "4" | 5%N => "5" | 6%N => "6" | 7%N => "7"
  | 8%N => "8" | 9%N => "9" | 10%N => "a" | 11%N => "b"
  | 12%N => "c" | 13%N => "d" | 14%N => "e" | _ => "f"
  end%char.

Definition hex_of_byte (b : Byte.byte) : string :=
  let n := Byte.to_N b in
  String (hex_digit (n / 16)) (String (hex_digit (n mod 16)) EmptyString).

Fixpoint hex (bs : list Byte.byte) : string :=
  match bs with
  | [] => EmptyString
  | b :: rest => String.append (hex_of_byte b) (hex rest)
  end.

(** Reading the digits back, to show that [hex] loses nothing. *)
Definition hex_value (c : ascii) : option N :=
  match c with
  | "0" => Some 0%N | "1" => Some 1%N | "2" => Some 2%N | "3" => Some 3%N
  | "4" => Some 4%N | "5" => Some 5%N | "6" => Some 6%N | "7" => Some 7%N
  | "8" => Some 8%N | "9" => Some 9%N | "a" => Some 10%N | "b" => Some 11%N
  | "c" => Some 12%N | "d" => Some 13%N | "e" => Some 14%N | "f" => Some 15%N
  | _ => None
  end%char.

Fixpoint unhex (s : string) : option (list Byte.byte) :=
  match s with
  | EmptyString => Some []
  | String c1 (String c2 rest) =>
      hi ← hex_value c1;
      lo ← hex_value c2;
      b ← Byte.of_N (16 * hi + lo);
      bs ← unhex rest;
      Some (b :: bs)
  | String _ EmptyString => None
  end.

(** The protobuf span, with the fields the decoder reads. [kind] is passed
    on unchanged and has the type the [Span] object keeps it at. *)
Module PBSpan.
Module Status.
Record t : Type := Build {
  code : Z;
  message : string;
}.
End Status.

Module Event.
Record t : Type := Build {
  name : string;
  time_unix_nano : Z;
}.
End Event.

Module Link.
Record t : Type := Build {
  trace_id : list Byte.byte;
  span_id : list Byte.byte;
  trace_state : string;
}.
End Link.

Record t : Type := Build {
  trace_id : list Byte.byte;
  span_id : list Byte.byte;
  parent_span_id : list Byte.byte;
  name : string;
  kind : string;
  trace_state : string;
  start_time_unix_nano : Z;
  end_time_unix_nano : Z;
  status : Status.t;
  links : list Link.t;
  events : list Event.t;
}.
End PBSpan.

(** Modelled from the spec: like the constants above, the field names of
    [promptflow._constants] that the decoder uses are declared outside the
    source; the spec speaks of the attributes of a span, an event and a link
    and of the context of a span. The strings below stand for them, and no
    theorem depends on a spelling beyond the three context keys being
    different. *)
Module SpanContextFieldName.
Definition TRACE_ID : string := "trace_id".
Definition SPAN_ID : string := "span_id".
Definition TRACE_STATE : string := "trace_state".
End SpanContextFieldName.

Module SpanFieldName.
Definition ATTRIBUTES : string := "attributes".
End SpanFieldName.

Module SpanEventFieldName.
Definition ATTRIBUTES : string := "attributes".
End SpanEventFieldName.

Module SpanLinkFieldName.
Definition ATTRIBUTES : string := "attributes".
End SpanLinkFieldName.

(** What the decoder calls and the source does not hold: [span_dict],
    [event_dict] and [link_dict] are [json.loads(MessageToJson(m))] for a
    span, an event and a link; [flatten_pb_attributes],
    [convert_time_unix_nano_to_timestamp] and [parse_otel_span_status_code]
    are the helpers of [promptflow._sdk._utils]. *)
Class Protobuf : Type := {
  span_dict : PBSpan.t -> gmap string json;
  event_dict : PBSpan.Event.t -> gmap string json;
  link_dict : PBSpan.Link.t -> gmap string json;
  flatten_pb_attributes : json -> gmap string attr_value;
  convert_time_unix_nano_to_timestamp : Z -> datetime;
  parse_otel_span_status_code : Z -> string;
}.

(** ** Span: the methods *)

(** The mapping [_to_rest_object] returns. *)
Module RestSpan.
Record t : Type := Build {
  name : string;
  context : gmap string string;
  kind : string;
  parent_id : option string;
  start_time : string;
  end_time : string;
  status : SpanStatus.t;
  attributes : gmap string attr_value;
  links : list SpanLink.t;
  events : list SpanEvent.t;
  resource : gmap string (gmap string attr_value);
  external_event_data_uris : list attr_value;
}.
End RestSpan.

Module Span.
Section Methods.
Context `{Python}.

(** [ORMEvent(event_id=event_id, trace_id=self.trace_id,
    span_id=self.span_id, data=json.dumps(event))] *)
Definition orm_event (self : span) (event_id : string) (event : SpanEvent.t)
  : ORMEvent.t :=
  {| ORMEvent.event_id := event_id; ORMEvent.trace_id := trace_id self;
     ORMEvent.span_id := span_id self; ORMEvent.data := json_dumps event |}.

(** [{SPAN_EVENTS_ATTRIBUTES_EVENT_ID: event_id}] *)
Definition event_reference (event_id : string) : gmap string attr_value :=
  {[ SPAN_EVENTS_ATTRIBUTES_EVENT_ID := AStr event_id ]}.

(** The loop of [_persist_events] from the event at hand on: draw an id,
    store the event under it, leave the id as the event's only attribute. *)
Fixpoint persist_events_from (self : span) (evs : list SpanEvent.t) (w : World)
  : list SpanEvent.t * World :=
  match evs with
  | [] => ([], w)
  | event :: rest =>
      let event_id := uuid4 (uuid_calls w) in
      let w1 :=
        {| line_runs := line_runs w;
           event_rows := ORMEvent.persist (orm_event self event_id event) (event_rows w);
           span_rows := span_rows w; uuid_calls := S (uuid_calls w) |} in
      let event1 := SpanEvent.set_attributes event (event_reference event_id) in
      let '(rest1, w2) := persist_events_from self rest w1 in
      (event1 :: rest1, w2)
  end.

Definition _persist_events (self : span) (w : World) : span * World :=
  let '(evs, w1) := persist_events_from self (events self) w in
  (set_events self evs (_external_event_ids self), w1).

(** The loop of [_load_events]: the ids read and the events fetched. An
    exception leaves the ids appended so far in the Python object; the model
    returns the exception alone. *)
Fixpoint load_events_from (evs : list SpanEvent.t) (tbl : ORMEvent.table)
  : result (list attr_value * list SpanEvent.t) :=
  match evs with
  | [] => Ok ([], [])
  | event :: rest =>
      event_id ← getitem (SpanEvent.attributes event) SPAN_EVENTS_ATTRIBUTES_EVENT_ID;
      loaded ← Event.get event_id tbl;
      '(ids, fetched) ← load_events_from rest tbl;
      Ok (event_id :: ids, loaded :: fetched)
  end.

Definition _load_events (self : span) (w : World) : result span :=
  '(ids, fetched) ← load_events_from (events self) (event_rows w);
  Ok (set_events self fetched (_external_event_ids self ++ ids)).

Definition _persist_line_run (self : span) (w : World) : result World :=
  match parent_id self with
  | None =>
      line_run ← LineRun._from_root_span self (line_runs w);
      set_line_runs w <$> LineRun._try_update line_run (line_runs w)
  | Some _ =>
      line_run ← LineRun._from_non_root_span self (line_runs w);
      set_line_runs w <$> LineRun._try_create line_run (line_runs w)
  end.

Definition _to_orm_object (self : span) : ORMSpan.t :=
  {| ORMSpan.trace_id := trace_id self;
     ORMSpan.span_id := span_id self;
     ORMSpan.name := name self;
     ORMSpan.context := context self;
     ORMSpan.kind := kind self;
     ORMSpan.parent_id := parent_id self;
     ORMSpan.start_time := start_time self;
     ORMSpan.end_time := end_time self;
     ORMSpan.status := status self;
     ORMSpan.attributes :=
       if bool_decide (0 < size (attributes self))%nat then Some (attributes self) else None;
     ORMSpan.links :=
       if bool_decide (0 < length (links self))%nat then Some (links self) else None;
     ORMSpan.events :=
       if bool_decide (0 < length (events self))%nat then Some (events self) else None;
     ORMSpan.resource := resource self |}.

Definition _persist (self : span) (w : World) : result (span * World) :=
  w1 ← _persist_line_run self w;
  let '(self1, w2) := _persist_events self w1 in
  Ok (self1,
      {| line_runs := line_runs w2; event_rows := event_rows w2;
         span_rows := ORMSpan.persist (_to_orm_object self1) (span_rows w2);
         uuid_calls := uuid_calls w2 |}).

(** The loop of [_to_rest_object] over the copied events: [pop] the event id
    out of each event's attributes and collect it. *)
Fixpoint pop_event_ids (rest_events : list SpanEvent.t)
  : result (list SpanEvent.t * list attr_value) :=
  match rest_events with
  | [] => Ok ([], [])
  | event :: rest =>
      event_id ← getitem (SpanEvent.attributes event) SPAN_EVENTS_ATTRIBUTES_EVENT_ID;
      let event1 :=
        SpanEvent.set_attributes event
          (delete SPAN_EVENTS_ATTRIBUTES_EVENT_ID (SpanEvent.attributes event)) in
      '(rest1, uris) ← pop_event_ids rest;
      Ok (event1 :: rest1, event_id :: uris)
  end.

Definition _to_rest_object (self : span) : result RestSpan.t :=
  '(rest_events, rest_external_event_data_uris) ←
    (if bool_decide (length (_external_event_ids self) = 0%nat)
     then pop_event_ids (events self)
     else Ok (events self, _external_event_ids self));
  Ok {| RestSpan.name := name self;
        RestSpan.context := context self;
        RestSpan.kind := kind self;
        RestSpan.parent_id := parent_id self;
        RestSpan.start_time := isoformat (start_time self);
        RestSpan.end_time := isoformat (end_time self);
        RestSpan.status := status self;
        RestSpan.attributes := attributes self;
        RestSpan.links := links self;
        RestSpan.events := rest_events;
        RestSpan.resource := resource self;
        RestSpan.external_event_data_uris := rest_external_event_data_uris |}.

(** [Span.__init__]: attributes, links and events that are [None] become
    empty, and no event id is recorded. *)
Definition __init__ (trace_id span_id name : string) (context : gmap string string)
  (kind : string) (start_time end_time : datetime) (status : SpanStatus.t)
  (resource : gmap string (gmap string attr_value)) (parent_id : option string)
  (attributes : option (gmap string attr_value))
  (links : option (list SpanLink.t)) (events : option (list SpanEvent.t)) : span :=
  mkSpan trace_id span_id name context kind parent_id start_time end_time status
    (default ∅ attributes) (default [] links) (default [] events) resource [].

Definition _from_orm_object (obj : ORMSpan.t) : span :=
  __init__ (ORMSpan.trace_id obj) (ORMSpan.span_id obj) (ORMSpan.name obj)
    (ORMSpan.context obj) (ORMSpan.kind obj) (ORMSpan.start_time obj)
    (ORMSpan.end_time obj) (ORMSpan.status obj) (ORMSpan.resource obj)
    (ORMSpan.parent_id obj) (ORMSpan.attributes obj) (ORMSpan.links obj)
    (ORMSpan.events obj).

Context `{Protobuf}.

(** [message_dict.get(key, dict())]: the attributes of the JSON form of a
    message, the empty dictionary when it has none. *)
Definition pb_attributes (message_dict : gmap string json) (key : string) : json :=
  default (JObj []) (message_dict !! key).

Definition _from_protobuf_events (obj : list PBSpan.Event.t) : list SpanEvent.t :=
  map (fun pb_event =>
         {| SpanEvent.name := PBSpan.Event.name pb_event;
            SpanEvent.timestamp :=
              isoformat
                (convert_time_unix_nano_to_timestamp
                   (PBSpan.Event.time_unix_nano pb_event));
            SpanEvent.attributes :=
              flatten_pb_attributes
                (pb_attributes (event_dict pb_event) SpanEventFieldName.ATTRIBUTES) |})
    obj.

Definition _from_protobuf_links (obj : list PBSpan.Link.t) : list SpanLink.t :=
  map (fun pb_link =>
         {| SpanLink.context :=
              {[ SpanContextFieldName.TRACE_ID := hex (PBSpan.Link.trace_id pb_link);
                 SpanContextFieldName.SPAN_ID := hex (PBSpan.Link.span_id pb_link);
                 SpanContextFieldName.TRACE_STATE := PBSpan.Link.trace_state pb_link ]};
            SpanLink.attributes :=
              flatten_pb_attributes
                (pb_attributes (link_dict pb_link) SpanLinkFieldName.ATTRIBUTES) |})
    obj.

(** [_from_protobuf_object], the logging apart. *)
Definition _from_protobuf_object (obj : PBSpan.t)
  (resource : gmap string (gmap string attr_value)) : span :=
  let span_id := hex (PBSpan.span_id obj) in
  let trace_id := hex (PBSpan.trace_id obj) in
  let parent_id := hex (PBSpan.parent_span_id obj) in
  let attributes :=
    flatten_pb_attributes (pb_attributes (span_dict obj) SpanFieldName.ATTRIBUTES) in
  let links := _from_protobuf_links (PBSpan.links obj) in
  let events := _from_protobuf_events (PBSpan.events obj) in
  __init__ trace_id span_id (PBSpan.name obj)
    {[ SpanContextFieldName.TRACE_ID := trace_id;
       SpanContextFieldName.SPAN_ID := span_id;
       SpanContextFieldName.TRACE_STATE := PBSpan.trace_state obj ]}
    (PBSpan.kind obj)
    (convert_time_unix_nano_to_timestamp (PBSpan.start_time_unix_nano obj))
    (convert_time_unix_nano_to_timestamp (PBSpan.end_time_unix_nano obj))
    {| SpanStatus.status_code :=
         parse_otel_span_status_code (PBSpan.Status.code (PBSpan.status obj));
       SpanStatus.description := PBSpan.Status.message (PBSpan.status obj) |}
    resource
    (if bool_decide (parent_id = EmptyString) then None else Some parent_id)
    (Some attributes) (Some links) (Some events).
End Methods.
End Span.

(** The next [n] identifiers drawn from [uuid.uuid4]. *)
Definition draws `{Python} (n : nat) (w : World) : list string :=
  map uuid4 (seq (uuid_calls w) n).

(** What [uuid.uuid4] is relied on for: the next [n] identifiers differ from
    one another and from the ids of the events stored so far. *)
Definition draws_fresh `{Python} (n : nat) (w : World) : Prop :=
  NoDup (draws n w) /\
  Forall (fun id => id ∉ map ORMEvent.event_id (event_rows w)) (draws n w).

(** The event id an event refers to, when it holds one. *)
Definition reference_of (event : SpanEvent.t) : option attr_value :=
  SpanEvent.attributes event !! SPAN_EVENTS_ATTRIBUTES_EVENT_ID.

(** An event without the event id among its attributes. *)
Definition without_reference (event : SpanEvent.t) : SpanEvent.t :=
  SpanEvent.set_attributes event
    (delete SPAN_EVENTS_ATTRIBUTES_EVENT_ID (SpanEvent.attributes event)).

(** Spans handed to [Span._persist] one at a time, each against the tables
    the one before it left; the first exception ends the run. *)
Fixpoint persist_each `{Python} (spans : list span) (w : World) : result World :=
  match spans with
  | [] => Ok w
  | s :: rest =>
      '(_, w1) ← Span._persist s w;
      persist_each rest w1
  end.

(** ** A concrete library and sample spans

    Stand-ins for the library functions, so that the model runs on concrete
    spans: identifiers are numbered, an event is written as the binary
    numeral of its code, a payload is one of two literals, integers are
    unsigned decimals and a time is printed as its number. *)

Fixpoint string_of_pos (p : positive) : string :=
  match p with
  | xH => EmptyString
  | xO q => String "0"%char (string_of_pos q)
  | xI q => String "1"%char (string_of_pos q)
  end.

Fixpoint pos_of_string (s : string) : positive :=
  match s with
  | EmptyString => xH
  | String c rest =>
      if bool_decide (c = "1"%char) then xI (pos_of_string rest)
      else xO (pos_of_string rest)
  end.

Fixpoint decimal_from (acc : Z) (s : string) : option Z :=
  match s with
  | EmptyString => Some acc
  | String c rest =>
      let d := Z.of_nat (Ascii.nat_of_ascii c) - 48 in
      if bool_decide (0 <= d <= 9) then decimal_from (10 * acc + d) rest else None
  end.

Definition decimal (s : string) : option Z :=
  match s with
  | EmptyString => None
  | _ => decimal_from 0 s
  end.

Definition sample_python : Python :=
  {| uuid4 := fun n => String.append "event-" (pretty n);
     json_dumps := fun e => string_of_pos (encode e);
     json_loads_event := fun s => decode (pos_of_string s);
     json_loads := fun s =>
       if bool_decide (s = "{}"%string) then Some (JObj [])
       else if bool_decide (s = "null"%string) then Some JNull
       else None;
     int_of_str := decimal;
     isoformat := fun t => pretty t |}.

Definition empty_world : World :=
  {| line_runs := []; event_rows := []; span_rows := []; uuid_calls := 0 |}.

Definition ok_status : SpanStatus.t :=
  {| SpanStatus.status_code := "Ok"; SpanStatus.description := "" |}.

(** An event that carries a payload, as the decoder leaves it. *)
Definition inputs_event : SpanEvent.t :=
  {| SpanEvent.name := SPAN_EVENTS_NAME_PF_INPUTS;
     SpanEvent.timestamp := "2024-01-01T00:00:00";
     SpanEvent.attributes := {[ SPAN_EVENTS_ATTRIBUTE_PAYLOAD := AStr "{}" ]} |}.

(** The root span of trace abc123, with the inputs of the run. *)
Definition root_span : span :=
  {| trace_id := "abc123"; span_id := "01"; name := "flow"; context := ∅;
     kind := "1"; parent_id := None; start_time := 0; end_time := 1500000;
     status := ok_status; attributes := ∅;
     links := []; events := [inputs_event]; resource := ∅;
     _external_event_ids := [] |}.

(** A root span with token counts. *)
Definition root_span_with_tokens : span :=
  {| trace_id := "def456"; span_id := "01"; name := "flow"; context := ∅;
     kind := "1"; parent_id := None; start_time := 0; end_time := 1500000;
     status := ok_status;
     attributes :=
       {[ SpanAttributeFieldName.COMPLETION_TOKEN_COUNT := AInt 3;
          SpanAttributeFieldName.PROMPT_TOKEN_COUNT := AInt 5;
          SpanAttributeFieldName.TOTAL_TOKEN_COUNT := AInt 8 ]};
     links := []; events := []; resource := ∅;
     _external_event_ids := [] |}.

(** A child span of trace abc123. *)
Definition child_span : span :=
  {| trace_id := "abc123"; span_id := "02"; name := "llm"; context := ∅;
     kind := "1"; parent_id := Some "01"; start_time := 10; end_time := 20;
     status := ok_status; attributes := ∅;
     links := []; events := []; resource := ∅;
     _external_event_ids := [] |}.

(** A child span as the decoder leaves it, with one event that carries its
    payload. *)
Definition decoded_span : span :=
  {| trace_id := "abc123"; span_id := "04"; name := "tool"; context := ∅;
     kind := "1"; parent_id := Some "01"; start_time := 10; end_time := 20;
     status := ok_status; attributes := ∅;
     links := []; events := [inputs_event]; resource := ∅;
     _external_event_ids := [] |}.

(** A span that names a batch run and carries no line number. *)
Definition batch_span_without_line_number : span :=
  {| trace_id := "abc123"; span_id := "03"; name := "eval"; context := ∅;
     kind := "1"; parent_id := Some "01"; start_time := 10; end_time := 20;
     status := ok_status;
     attributes := {[ SpanAttributeFieldName.REFERENCED_BATCH_RUN_ID := AStr "run1" ]};
     links := []; events := []; resource := ∅;
     _external_event_ids := [] |}.

(** * Properties *)

(** ** Results *)

Lemma bind_Ok {A B : Type} (f : A -> result B) (m : result A) (b : B) :
  m ≫= f = Ok b <-> exists a, m = Ok a /\ f a = Ok b.
Proof.
  destruct m as [a|e]; simpl; split.
  - intros Hf. exists a. split; [reflexivity | exact Hf].
  - intros (a' & Ha & Hf). injection Ha as ->. exact Hf.
  - discriminate.
  - intros (a' & Ha & _). discriminate.
Qed.

Lemma fmap_Ok {A B : Type} (f : A -> B) (m : result A) (b : B) :
  f <$> m = Ok b <-> exists a, m = Ok a /\ b = f a.
Proof.
  destruct m as [a|e]; simpl; split.
  - intros [= <-]. exists a. split; reflexivity.
  - intros (a' & [= <-] & ->). reflexivity.
  - discriminate.
  - intros (a' & Ha & _). discriminate.
Qed.

Lemma bind_Raise {A B : Type} (f : A -> result B) (m : result A) (e : exception) :
  m ≫= f = Raise e <-> m = Raise e \/ exists a, m = Ok a /\ f a = Raise e.
Proof.
  destruct m as [a|e']; simpl; split.
  - intros Hf. right. exists a. split; [reflexivity | exact Hf].
  - intros [Hm | (a' & [= <-] & Hf)]; [discriminate | exact Hf].
  - intros Hm. left. congruence.
  - intros [Hm | (a' & Hm & _)]; [congruence | discriminate].
Qed.

Lemma fmap_Raise {A B : Type} (f : A -> B) (m : result A) (e : exception) :
  f <$> m = Raise e <-> m = Raise e.
Proof. destruct m; simpl; split; congruence. Qed.

Lemma getitem_Ok {V : Type} (d : gmap string V) (key : string) (v : V) :
  getitem d key = Ok v <-> d !! key = Some v.
Proof. unfold getitem. destruct (d !! key); split; congruence. Qed.

Lemma getitem_Raise {V : Type} (d : gmap string V) (key : string) (e : exception) :
  getitem d key = Raise e <-> d !! key = None /\ e = KeyError key.
Proof.
  unfold getitem. destruct (d !! key); split.
  - discriminate.
  - intros [? _]. discriminate.
  - intros [= <-]. split; reflexivity.
  - intros [_ ->]. reflexivity.
Qed.

(** Take apart the hypotheses that say a sequence of calls returned. *)
Ltac returned :=
  repeat match goal with
  | H : _ ≫= _ = Ok _ |- _ =>
      apply bind_Ok in H; destruct H as (? & ? & H)
  | H : _ <$> _ = Ok _ |- _ =>
      apply fmap_Ok in H; destruct H as (? & H & ?)
  | H : Ok _ = Ok _ |- _ => injection H as H
  | H : getitem _ _ = Ok _ |- _ => apply getitem_Ok in H
  end.

(** ** Identity resolution *)

Section Identity.
Import SpanAttributeFieldName.

(** C6. The line run id of a span is its explicit line-run-id attribute
    when the span carries one, whatever its trace id, and its trace id
    otherwise. *)
Theorem determine_line_run_id_attribute_or_trace (s : span) :
  (forall id, attributes s !! LINE_RUN_ID = Some id ->
     LineRun._determine_line_run_id s = id) /\
  (attributes s !! LINE_RUN_ID = None ->
     LineRun._determine_line_run_id s = AStr (trace_id s)).
Proof.
  unfold LineRun._determine_line_run_id. split.
  - intros id ->. reflexivity.
  - intros ->. reflexivity.
Qed.

(** The two cases of the identity fallback on named ids. *)
Example line_run_id_of_trace_abc123 :
  LineRun._determine_line_run_id root_span = AStr "abc123".
Proof. reflexivity. Qed.

Example line_run_id_explicit_xyz (s : span) :
  LineRun._determine_line_run_id
    (mkSpan (trace_id s) (span_id s) (name s) (context s) (kind s) (parent_id s)
       (start_time s) (end_time s) (status s)
       (<[LINE_RUN_ID := AStr "xyz"]> (attributes s))
       (links s) (events s) (resource s) (_external_event_ids s))
  = AStr "xyz".
Proof.
  unfold LineRun._determine_line_run_id. simpl.
  rewrite lookup_insert_eq. reflexivity.
Qed.

Lemma get_with_run_and_line_number_Some (r n : attr_value) (tbl : ORMLineRun.table)
  (row : ORMLineRun.t) :
  ORMLineRun._get_with_run_and_line_number r n tbl = Some row ->
  row ∈ tbl /\ ORMLineRun.run row = Some r /\ ORMLineRun.line_number row = Some n.
Proof.
  unfold ORMLineRun._get_with_run_and_line_number. intros Hfind.
  apply List.find_some in Hfind as [Hin Hrow].
  apply bool_decide_eq_true in Hrow as [Hr Hn].
  split; [apply list_elem_of_In; exact Hin | split; assumption].
Qed.

Lemma get_with_run_and_line_number_None (r n : attr_value) (tbl : ORMLineRun.table) :
  ORMLineRun._get_with_run_and_line_number r n tbl = None <->
  forall row, row ∈ tbl ->
    ~ (ORMLineRun.run row = Some r /\ ORMLineRun.line_number row = Some n).
Proof.
  unfold ORMLineRun._get_with_run_and_line_number. split.
  - intros Hfind row Hin Hrow.
    apply list_elem_of_In in Hin.
    pose proof (List.find_none _ _ Hfind row Hin) as Hno. simpl in Hno.
    apply bool_decide_eq_false in Hno. contradiction.
  - intros Hno.
    destruct (List.find _ tbl) as [row|] eqn:Hfind; [|reflexivity].
    apply List.find_some in Hfind as [Hin Hrow].
    apply bool_decide_eq_true in Hrow.
    exfalso. apply (Hno row); [apply list_elem_of_In; exact Hin | exact Hrow].
Qed.

(** C7, as amended. The parent line-run id of a span is its
    referenced-line-run-id attribute when present; otherwise, when the span
    carries both a referenced-batch-run-id and a line-number attribute, it is
    the id of the line run stored for that pair when there is one and absent
    when there is none; and it is absent when the span carries neither a
    referenced line run id nor a referenced batch run id. *)
Theorem determine_parent_id_cases (s : span) (tbl : ORMLineRun.table) :
  (forall id, attributes s !! REFERENCED_LINE_RUN_ID = Some id ->
     LineRun._determine_parent_id s tbl = Ok (Some id)) /\
  (forall r n,
     attributes s !! REFERENCED_LINE_RUN_ID = None ->
     attributes s !! REFERENCED_BATCH_RUN_ID = Some r ->
     attributes s !! LINE_NUMBER = Some n ->
     ((exists row, row ∈ tbl /\ ORMLineRun.run row = Some r /\
                   ORMLineRun.line_number row = Some n) ->
      exists row, row ∈ tbl /\ ORMLineRun.run row = Some r /\
                  ORMLineRun.line_number row = Some n /\
                  LineRun._determine_parent_id s tbl
                  = Ok (Some (ORMLineRun.line_run_id row))) /\
     ((forall row, row ∈ tbl ->
         ~ (ORMLineRun.run row = Some r /\ ORMLineRun.line_number row = Some n)) ->
      LineRun._determine_parent_id s tbl = Ok None)) /\
  (attributes s !! REFERENCED_LINE_RUN_ID = None ->
   attributes s !! REFERENCED_BATCH_RUN_ID = None ->
   LineRun._determine_parent_id s tbl = Ok None).
Proof.
  unfold LineRun._determine_parent_id. split; [|split].
  - intros id ->. reflexivity.
  - intros r n -> -> Hn.
    apply getitem_Ok in Hn. rewrite Hn. simpl. split.
    + intros (row & Hin & Hr & Hl).
      destruct (ORMLineRun._get_with_run_and_line_number r n tbl) as [found|] eqn:Hfind.
      * apply get_with_run_and_line_number_Some in Hfind as (Hin' & Hr' & Hl').
        exists found. repeat split; assumption.
      * exfalso.
        apply (proj1 (get_with_run_and_line_number_None r n tbl) Hfind row Hin).
        split; assumption.
    + intros Hno.
      apply get_with_run_and_line_number_None in Hno. rewrite Hno. reflexivity.
  - intros -> ->. reflexivity.
Qed.

(** C7, as stated, fails: a span that names a batch run without a line
    number has no stored line run for its pair, and its parent id is not
    absent: the lookup of the line number raises. *)
Lemma parent_id_of_batch_span_raises :
  attributes batch_span_without_line_number !! REFERENCED_LINE_RUN_ID = None /\
  attributes batch_span_without_line_number !! REFERENCED_BATCH_RUN_ID
    = Some (AStr "run1") /\
  ORMLineRun._get_with_run_and_line_number (AStr "run1") (AInt 2) [] = None /\
  LineRun._determine_parent_id batch_span_without_line_number []
    = Raise (KeyError LINE_NUMBER).
Proof. repeat split; vm_compute; reflexivity. Qed.

(** The parent linkage of the spec's example: run1, line 2, line run lr9. *)
Example parent_id_via_batch_lookup (s : span) (row : ORMLineRun.t) :
  attributes s !! REFERENCED_LINE_RUN_ID = None ->
  attributes s !! REFERENCED_BATCH_RUN_ID = Some (AStr "run1") ->
  attributes s !! LINE_NUMBER = Some (AInt 2) ->
  ORMLineRun.run row = Some (AStr "run1") ->
  ORMLineRun.line_number row = Some (AInt 2) ->
  ORMLineRun.line_run_id row = AStr "lr9" ->
  LineRun._determine_parent_id s [row] = Ok (Some (AStr "lr9")) /\
  LineRun._determine_parent_id s [] = Ok None.
Proof.
  intros Hl Hb Hn Hr Hln Hid. unfold LineRun._determine_parent_id.
  rewrite Hl, Hb. apply getitem_Ok in Hn. rewrite Hn. simpl.
  unfold ORMLineRun._get_with_run_and_line_number. simpl.
  rewrite bool_decide_eq_true_2 by (split; assumption).
  simpl. rewrite Hid. split; reflexivity.
Qed.

(** C10. For a span that carries a referenced-batch-run-id attribute and no
    line-number attribute, resolution of the parent id never answers "no
    parent": without a referenced line run id the lookup of the line number
    raises [KeyError]. *)
Theorem determine_parent_id_missing_line_number (s : span) (tbl : ORMLineRun.table) :
  is_Some (attributes s !! REFERENCED_BATCH_RUN_ID) ->
  attributes s !! LINE_NUMBER = None ->
  LineRun._determine_parent_id s tbl <> Ok None /\
  (attributes s !! REFERENCED_LINE_RUN_ID = None ->
   LineRun._determine_parent_id s tbl = Raise (KeyError LINE_NUMBER)).
Proof.
  intros [r Hr] Hn. unfold LineRun._determine_parent_id.
  rewrite Hr. unfold getitem. rewrite Hn. simpl.
  destruct (attributes s !! REFERENCED_LINE_RUN_ID); split;
    try discriminate; try reflexivity.
Qed.
End Identity.

Lemma determine_parent_id_missing_line_number_witness :
  LineRun._determine_parent_id batch_span_without_line_number [] <> Ok None /\
  (attributes batch_span_without_line_number
     !! SpanAttributeFieldName.REFERENCED_LINE_RUN_ID = None ->
   LineRun._determine_parent_id batch_span_without_line_number []
   = Raise (KeyError SpanAttributeFieldName.LINE_NUMBER)).
Proof.
  apply (determine_parent_id_missing_line_number batch_span_without_line_number []).
  - exists (AStr "run1"). vm_compute. reflexivity.
  - vm_compute. reflexivity.
Defined.

(** ** Reconstruction from the root span *)

Section Reconstruction.
Context `{Python}.
Import SpanAttributeFieldName.

Lemma token_count_absent (s : span) (key : string) :
  attributes s !! key = None -> LineRun.token_count s key = Ok 0.
Proof. unfold LineRun.token_count. intros ->. reflexivity. Qed.

Lemma token_count_int (s : span) (key : string) (z : Z) :
  attributes s !! key = Some (AInt z) -> LineRun.token_count s key = Ok z.
Proof. unfold LineRun.token_count. intros ->. reflexivity. Qed.

Lemma token_count_value (s : span) (key : string) (z : Z) :
  LineRun.token_count s key = Ok z -> attributes s !! key = None -> z = 0.
Proof. intros Hz Hk. rewrite (token_count_absent s key Hk) in Hz. congruence. Qed.

(** What [_from_root_span] returns, field by field. *)
Lemma from_root_span_Ok (s : span) (tbl : ORMLineRun.table) (lr : LineRun.t) :
  LineRun._from_root_span s tbl = Ok lr ->
  exists args completion prompt total span_inputs span_outputs,
    LineRun._parse_common_args s tbl = Ok args /\
    LineRun.token_count s COMPLETION_TOKEN_COUNT = Ok completion /\
    LineRun.token_count s PROMPT_TOKEN_COUNT = Ok prompt /\
    LineRun.token_count s TOTAL_TOKEN_COUNT = Ok total /\
    LineRun._get_inputs_from_span s = Ok span_inputs /\
    LineRun._get_outputs_from_span s = Ok span_outputs /\
    LineRun.line_run_id lr = LineRun._determine_line_run_id s /\
    LineRun.root_span_id lr = Some (span_id s) /\
    LineRun.inputs lr = span_inputs /\
    LineRun.outputs lr = span_outputs /\
    LineRun.end_time lr = Some (end_time s) /\
    LineRun.status lr = SpanStatus.status_code (status s) /\
    LineRun.duration lr = Some (total_seconds (end_time s) (start_time s)) /\
    LineRun.cumulative_token_count lr =
      (if bool_decide (total > 0)
       then Some (TokenCount.Build completion prompt total) else None).
Proof.
  unfold LineRun._from_root_span. intros Hlr. returned.
  match goal with
  | Ha : LineRun._parse_common_args _ _ = Ok ?a |- _ => exists a
  end.
  do 5 eexists. repeat (split; [eassumption|]).
  match goal with
  | Ha : LineRun._parse_common_args _ _ = Ok _ |- _ =>
      unfold LineRun._parse_common_args in Ha; returned; subst
  end.
  subst. simpl. repeat split; reflexivity.
Qed.

Lemma from_non_root_span_Ok (s : span) (tbl : ORMLineRun.table) (lr : LineRun.t) :
  LineRun._from_non_root_span s tbl = Ok lr ->
  LineRun.line_run_id lr = LineRun._determine_line_run_id s /\
  LineRun.status lr = RUNNING_LINE_RUN_STATUS /\
  LineRun.root_span_id lr = None /\
  LineRun.inputs lr = None /\ LineRun.outputs lr = None /\
  LineRun.end_time lr = None /\ LineRun.duration lr = None.
Proof.
  unfold LineRun._from_non_root_span, LineRun._parse_common_args.
  intros Hlr. returned. subst. simpl. repeat split; reflexivity.
Qed.

(** What [int(span.attributes.get(key, 0))] returns, read off the span's
    attributes: 0 for a missing attribute, the integer an attribute holds,
    and for a text what [int] makes of it. *)
Lemma token_count_Ok (s : span) (key : string) (count : Z) :
  LineRun.token_count s key = Ok count ->
  match attributes s !! key with
  | None => count = 0
  | Some (AInt z) => count = z
  | Some (AStr text) => int_of_str text = Some count
  end.
Proof.
  unfold LineRun.token_count, py_int.
  destruct (attributes s !! key) as [[text|z]|]; simpl.
  - destruct (int_of_str text); [|discriminate]. congruence.
  - congruence.
  - congruence.
Qed.

(** C8. The line run rebuilt from a root span carries a cumulative token
    count exactly when the span's total-token attribute is strictly
    positive; the count then holds the completion, prompt and total
    attributes. Each of the three is read from the span's attributes: 0 when
    the attribute is missing, the integer the attribute holds, and for a text
    the integer [int] reads from it. So completion 3, prompt 5, total 8 give
    exactly that count, and a total of 0 or no total gives none. *)
Theorem cumulative_token_count_of_root (s : span) (tbl : ORMLineRun.table)
  (lr : LineRun.t) :
  LineRun._from_root_span s tbl = Ok lr ->
  exists completion prompt total,
    match attributes s !! COMPLETION_TOKEN_COUNT with
    | None => completion = 0
    | Some (AInt z) => completion = z
    | Some (AStr text) => int_of_str text = Some completion
    end /\
    match attributes s !! PROMPT_TOKEN_COUNT with
    | None => prompt = 0
    | Some (AInt z) => prompt = z
    | Some (AStr text) => int_of_str text = Some prompt
    end /\
    match attributes s !! TOTAL_TOKEN_COUNT with
    | None => total = 0
    | Some (AInt z) => total = z
    | Some (AStr text) => int_of_str text = Some total
    end /\
    (is_Some (LineRun.cumulative_token_count lr) <-> 0 < total) /\
    (0 < total ->
     LineRun.cumulative_token_count lr
     = Some {| TokenCount.completion := completion;
               TokenCount.prompt := prompt;
               TokenCount.total := total |}) /\
    (total <= 0 -> LineRun.cumulative_token_count lr = None).
Proof.
  intros Hlr.
  apply from_root_span_Ok in Hlr
    as (args & c & p & t & i & o & _ & Hc & Hp & Ht & _ & _ & Hrest).
  destruct Hrest as (_ & _ & _ & _ & _ & _ & _ & Hcount).
  exists c, p, t.
  split; [exact (token_count_Ok _ _ _ Hc)|].
  split; [exact (token_count_Ok _ _ _ Hp)|].
  split; [exact (token_count_Ok _ _ _ Ht)|].
  rewrite Hcount. case_bool_decide as Hpos.
  - split; [|split].
    + split; [intros _; lia | intros _; eexists; reflexivity].
    + intros _. reflexivity.
    + intros Hle. lia.
  - split; [|split].
    + split; [intros [? ?]; discriminate | intros ?; lia].
    + intros ?. lia.
    + intros _. reflexivity.
Qed.
End Reconstruction.

Lemma cumulative_token_count_of_root_witness :
  exists lr,
    @LineRun._from_root_span sample_python root_span_with_tokens [] = Ok lr /\
    LineRun.cumulative_token_count lr
    = Some {| TokenCount.completion := 3;
              TokenCount.prompt := 5;
              TokenCount.total := 8 |}.
Proof.
  eexists. split; [vm_compute; reflexivity|].
  destruct (@cumulative_token_count_of_root sample_python root_span_with_tokens []
              _ eq_refl)
    as (completion & prompt & total & Hc & Hp & Ht & _ & Hcount & _).
  vm_compute in Hc, Hp, Ht. subst completion prompt total.
  apply Hcount. lia.
Defined.

(** The spec's token example: completion 3, prompt 5, total 8; and no count
    for a total of 0 or a missing total. *)
Example token_aggregation_3_5_8 `{Python} (s : span) (tbl : ORMLineRun.table)
  (lr : LineRun.t) :
  attributes s !! SpanAttributeFieldName.COMPLETION_TOKEN_COUNT = Some (AInt 3) ->
  attributes s !! SpanAttributeFieldName.PROMPT_TOKEN_COUNT = Some (AInt 5) ->
  attributes s !! SpanAttributeFieldName.TOTAL_TOKEN_COUNT = Some (AInt 8) ->
  LineRun._from_root_span s tbl = Ok lr ->
  LineRun.cumulative_token_count lr = Some (TokenCount.Build 3 5 8).
Proof.
  intros Hc Hp Ht Hlr.
  apply from_root_span_Ok in Hlr
    as (args & c & p & t & i & o & _ & Hc' & Hp' & Ht' & _ & _ & Hrest).
  destruct Hrest as (_ & _ & _ & _ & _ & _ & _ & Hcount).
  rewrite (token_count_int s _ 3 Hc) in Hc'.
  rewrite (token_count_int s _ 5 Hp) in Hp'.
  rewrite (token_count_int s _ 8 Ht) in Ht'.
  injection Hc' as <-. injection Hp' as <-. injection Ht' as <-.
  rewrite Hcount. reflexivity.
Qed.

Example token_aggregation_total_0_or_absent `{Python} (s : span)
  (tbl : ORMLineRun.table) (lr : LineRun.t) :
  attributes s !! SpanAttributeFieldName.TOTAL_TOKEN_COUNT = Some (AInt 0) \/
  attributes s !! SpanAttributeFieldName.TOTAL_TOKEN_COUNT = None ->
  LineRun._from_root_span s tbl = Ok lr ->
  LineRun.cumulative_token_count lr = None.
Proof.
  intros Ht Hlr.
  apply from_root_span_Ok in Hlr
    as (args & c & p & t & i & o & _ & _ & _ & Ht' & _ & _ & Hrest).
  destruct Hrest as (_ & _ & _ & _ & _ & _ & _ & Hcount).
  assert (t = 0) as ->.
  { destruct Ht as [Ht | Ht].
    - rewrite (token_count_int s _ 0 Ht) in Ht'. congruence.
    - eauto using token_count_value. }
  rewrite Hcount. reflexivity.
Qed.

(** ** The line-run table *)

Section LineRunTable.
Implicit Types (id : attr_value) (row : ORMLineRun.t) (tbl : ORMLineRun.table).

Lemma has_id_true id row :
  ORMLineRun.has_id id row = true <-> ORMLineRun.line_run_id row = id.
Proof. unfold ORMLineRun.has_id. apply bool_decide_eq_true. Qed.

Lemma orm_get_Ok id tbl row :
  ORMLineRun.get id tbl = Ok row -> ORMLineRun.line_run_id row = id /\ row ∈ tbl.
Proof.
  unfold ORMLineRun.get.
  destruct (List.find _ tbl) as [found|] eqn:Hfind; [|discriminate].
  intros [= <-]. apply List.find_some in Hfind as [Hin Hid].
  split; [apply has_id_true; exact Hid | apply list_elem_of_In; exact Hin].
Qed.

Lemma orm_get_found id tbl :
  (exists row, ORMLineRun.get id tbl = Ok row) <-> (0 < ORMLineRun.rows id tbl)%nat.
Proof.
  unfold ORMLineRun.get, ORMLineRun.rows.
  induction tbl as [|row tbl IH]; simpl.
  - split; [intros [? ?]; discriminate | lia].
  - destruct (ORMLineRun.has_id id row); simpl.
    + split; [lia | intros _; eexists; reflexivity].
    + exact IH.
Qed.

Lemma orm_get_Raise id tbl e :
  ORMLineRun.get id tbl = Raise e ->
  e = LineRunNotFoundError /\ ORMLineRun.rows id tbl = 0%nat.
Proof.
  intros Hget. split.
  - unfold ORMLineRun.get in Hget. destruct (List.find _ tbl); congruence.
  - destruct (ORMLineRun.rows id tbl) as [|n] eqn:Hrows; [reflexivity|].
    assert (exists row, ORMLineRun.get id tbl = Ok row) as [row Hrow]
      by (apply orm_get_found; lia).
    congruence.
Qed.

Lemma rows_persist id row tbl :
  ORMLineRun.rows id (ORMLineRun.persist row tbl)
  = (ORMLineRun.rows id tbl + if ORMLineRun.has_id id row then 1 else 0)%nat.
Proof.
  unfold ORMLineRun.rows, ORMLineRun.persist.
  rewrite List.filter_app, length_app. simpl.
  destruct (ORMLineRun.has_id id row); reflexivity.
Qed.

Lemma rows_update id row tbl :
  ORMLineRun.rows id (ORMLineRun._update row tbl) = ORMLineRun.rows id tbl.
Proof.
  unfold ORMLineRun.rows, ORMLineRun._update.
  induction tbl as [|old tbl IH]; simpl; [reflexivity|].
  destruct (ORMLineRun.has_id (ORMLineRun.line_run_id row) old) eqn:Hold.
  - apply has_id_true in Hold.
    replace (ORMLineRun.has_id id row) with (ORMLineRun.has_id id old)
      by (unfold ORMLineRun.has_id; rewrite Hold; reflexivity).
    destruct (ORMLineRun.has_id id old); simpl; rewrite IH; reflexivity.
  - destruct (ORMLineRun.has_id id old); simpl; rewrite IH; reflexivity.
Qed.

(** After an update the lookup of the id returns the new values. *)
Lemma get_update row tbl old :
  ORMLineRun.get (ORMLineRun.line_run_id row) tbl = Ok old ->
  ORMLineRun.get (ORMLineRun.line_run_id row) (ORMLineRun._update row tbl) = Ok row.
Proof.
  unfold ORMLineRun.get, ORMLineRun._update.
  induction tbl as [|r tbl IH]; simpl; [discriminate|].
  destruct (ORMLineRun.has_id (ORMLineRun.line_run_id row) r) eqn:Hr.
  - intros _.
    rewrite (proj2 (has_id_true (ORMLineRun.line_run_id row) row) eq_refl).
    reflexivity.
  - rewrite Hr. exact IH.
Qed.

(** A row added to a table without the id is what the lookup returns. *)
Lemma get_persist_new row tbl e :
  ORMLineRun.get (ORMLineRun.line_run_id row) tbl = Raise e ->
  ORMLineRun.get (ORMLineRun.line_run_id row) (ORMLineRun.persist row tbl) = Ok row.
Proof.
  unfold ORMLineRun.get, ORMLineRun.persist.
  induction tbl as [|r tbl IH]; simpl.
  - intros _.
    rewrite (proj2 (has_id_true (ORMLineRun.line_run_id row) row) eq_refl).
    reflexivity.
  - destruct (ORMLineRun.has_id (ORMLineRun.line_run_id row) r); [discriminate|].
    exact IH.
Qed.

(** A row added at the end changes no lookup that already succeeded. *)
Lemma get_persist_old id row tbl old :
  ORMLineRun.get id tbl = Ok old ->
  ORMLineRun.get id (ORMLineRun.persist row tbl) = Ok old.
Proof.
  unfold ORMLineRun.get, ORMLineRun.persist.
  induction tbl as [|r tbl IH]; simpl; [discriminate|].
  destruct (ORMLineRun.has_id id r); [trivial | exact IH].
Qed.
End LineRunTable.

(** ** The exceptions of the reconstruction *)

Section Exceptions.
Context `{Python}.
Import SpanAttributeFieldName.

Lemma determine_parent_id_Raise (s : span) (tbl : ORMLineRun.table) (e : exception) :
  LineRun._determine_parent_id s tbl = Raise e -> e = KeyError LINE_NUMBER.
Proof.
  unfold LineRun._determine_parent_id.
  destruct (attributes s !! REFERENCED_LINE_RUN_ID); [discriminate|].
  destruct (attributes s !! REFERENCED_BATCH_RUN_ID); [|discriminate].
  intros Hraise. apply bind_Raise in Hraise as [Hget | (n & _ & Hok)].
  - apply getitem_Raise in Hget as [_ ->]. reflexivity.
  - discriminate.
Qed.

Lemma parse_common_args_Raise (s : span) (tbl : ORMLineRun.table) (e : exception) :
  LineRun._parse_common_args s tbl = Raise e -> e = KeyError LINE_NUMBER.
Proof.
  unfold LineRun._parse_common_args. intros Hraise.
  apply bind_Raise in Hraise as [Hparent | (p & _ & Hok)].
  - eapply determine_parent_id_Raise. exact Hparent.
  - discriminate.
Qed.

Lemma token_count_Raise (s : span) (key : string) (e : exception) :
  LineRun.token_count s key = Raise e -> e = ValueError.
Proof.
  unfold LineRun.token_count, py_int.
  destruct (default (AInt 0) (attributes s !! key)) as [str|z]; [|discriminate].
  destruct (int_of_str str); congruence.
Qed.

Lemma payload_of_first_Raise (event_name : string) (evs : list SpanEvent.t)
  (e : exception) :
  LineRun.payload_of_first event_name evs = Raise e ->
  e = KeyError SPAN_EVENTS_ATTRIBUTE_PAYLOAD \/ e = JSONDecodeError \/ e = TypeError.
Proof.
  induction evs as [|event rest IH]; simpl; [discriminate|].
  case_bool_decide; [|exact IH].
  intros Hraise. apply bind_Raise in Hraise as [Hget | (payload & _ & Hloads)].
  - apply getitem_Raise in Hget as [_ ->]. left. reflexivity.
  - unfold py_json_loads in Hloads.
    destruct payload as [str|z].
    + destruct (json_loads str) as [[]|]; try discriminate.
      injection Hloads as <-. right. left. reflexivity.
    + injection Hloads as <-. right. right. reflexivity.
Qed.

(** The exceptions [_from_root_span] can raise. *)
Lemma from_root_span_Raise (s : span) (tbl : ORMLineRun.table) (e : exception) :
  LineRun._from_root_span s tbl = Raise e ->
  e = KeyError LINE_NUMBER \/ e = ValueError \/
  e = KeyError SPAN_EVENTS_ATTRIBUTE_PAYLOAD \/ e = JSONDecodeError \/ e = TypeError.
Proof.
  unfold LineRun._from_root_span, LineRun._get_inputs_from_span,
    LineRun._get_outputs_from_span.
  intros Hraise.
  apply bind_Raise in Hraise as [Hargs | (args & _ & Hraise)];
    [left; eapply parse_common_args_Raise; exact Hargs|].
  do 3 (apply bind_Raise in Hraise as [Hcount | (? & _ & Hraise)];
        [right; left; eapply token_count_Raise; exact Hcount|]).
  do 2 (apply bind_Raise in Hraise as [Hpayload | (? & _ & Hraise)];
        [right; right; eapply payload_of_first_Raise; exact Hpayload|]).
  discriminate.
Qed.

Lemma from_non_root_span_Raise (s : span) (tbl : ORMLineRun.table) (e : exception) :
  LineRun._from_non_root_span s tbl = Raise e -> e = KeyError LINE_NUMBER.
Proof.
  unfold LineRun._from_non_root_span. intros Hraise.
  apply bind_Raise in Hraise as [Hargs | (args & _ & Hok)].
  - eapply parse_common_args_Raise. exact Hargs.
  - discriminate.
Qed.
End Exceptions.

(** ** Create or update *)

Section Upsert.
Context `{Python}.

Lemma try_create_returns (lr : LineRun.t) (tbl : ORMLineRun.table) :
  LineRun._try_create lr tbl
  = Ok (match ORMLineRun.get (LineRun.line_run_id lr) tbl with
        | Ok _ => tbl
        | Raise _ => ORMLineRun.persist (LineRun._to_orm_object lr) tbl
        end).
Proof.
  unfold LineRun._try_create.
  destruct (ORMLineRun.get _ tbl) as [row|e] eqn:Hget; [reflexivity|].
  apply orm_get_Raise in Hget as [-> _]. reflexivity.
Qed.

Lemma try_update_returns (lr : LineRun.t) (tbl : ORMLineRun.table) :
  LineRun._try_update lr tbl
  = Ok (match ORMLineRun.get (LineRun.line_run_id lr) tbl with
        | Ok _ => ORMLineRun._update (LineRun._to_orm_object lr) tbl
        | Raise _ => ORMLineRun.persist (LineRun._to_orm_object lr) tbl
        end).
Proof.
  unfold LineRun._try_update.
  destruct (ORMLineRun.get _ tbl) as [row|e] eqn:Hget; [reflexivity|].
  apply orm_get_Raise in Hget as [-> _]. reflexivity.
Qed.

Lemma persist_line_run_Raise (s : span) (w : World) (e : exception) :
  Span._persist_line_run s w = Raise e -> e <> LineRunNotFoundError.
Proof.
  unfold Span._persist_line_run. destruct (parent_id s) as [p|]; intros Hraise.
  - apply bind_Raise in Hraise as [Hbuild | (lr & _ & Hwrite)].
    + apply from_non_root_span_Raise in Hbuild as ->. discriminate.
    + rewrite try_create_returns in Hwrite. discriminate.
  - apply bind_Raise in Hraise as [Hbuild | (lr & _ & Hwrite)].
    + apply from_root_span_Raise in Hbuild as [-> | [-> | [-> | [-> | ->]]]];
        discriminate.
    + rewrite try_update_returns in Hwrite. discriminate.
Qed.

Lemma persist_Raise (s : span) (w : World) (e : exception) :
  Span._persist s w = Raise e -> Span._persist_line_run s w = Raise e.
Proof.
  unfold Span._persist. intros Hraise.
  apply bind_Raise in Hraise as [Hline | (w1 & _ & Hrest)]; [exact Hline|].
  destruct (Span._persist_events s w1). discriminate.
Qed.

(** C3. A span without a parent id has the authoritative line run built
    from it; the rows of its id are updated when the lookup finds one and
    the line run is created otherwise. A span with a parent id has the
    placeholder built; the placeholder is created when the lookup finds no
    row and nothing is written otherwise. An exception of the builder is
    passed on, and in neither branch does the NotFound of the lookup reach
    the caller of [_persist_line_run] or of [_persist]. *)
Theorem persist_line_run_update_else_create (s : span) (w : World) :
  (parent_id s = None ->
   match LineRun._from_root_span s (line_runs w) with
   | Ok lr =>
       Span._persist_line_run s w
       = Ok (set_line_runs w
               match ORMLineRun.get (LineRun.line_run_id lr) (line_runs w) with
               | Ok _ => ORMLineRun._update (LineRun._to_orm_object lr) (line_runs w)
               | Raise _ => ORMLineRun.persist (LineRun._to_orm_object lr) (line_runs w)
               end)
   | Raise e => Span._persist_line_run s w = Raise e
   end) /\
  (parent_id s <> None ->
   match LineRun._from_non_root_span s (line_runs w) with
   | Ok lr =>
       Span._persist_line_run s w
       = Ok (set_line_runs w
               match ORMLineRun.get (LineRun.line_run_id lr) (line_runs w) with
               | Ok _ => line_runs w
               | Raise _ => ORMLineRun.persist (LineRun._to_orm_object lr) (line_runs w)
               end)
   | Raise e => Span._persist_line_run s w = Raise e
   end) /\
  Span._persist_line_run s w <> Raise LineRunNotFoundError /\
  Span._persist s w <> Raise LineRunNotFoundError.
Proof.
  split; [|split; [|split]].
  - intros Hroot. unfold Span._persist_line_run. rewrite Hroot.
    destruct (LineRun._from_root_span s (line_runs w)) as [lr|e]; simpl;
      [|reflexivity].
    rewrite try_update_returns. reflexivity.
  - intros Hchild. unfold Span._persist_line_run.
    destruct (parent_id s) as [p|]; [|contradiction].
    destruct (LineRun._from_non_root_span s (line_runs w)) as [lr|e]; simpl;
      [|reflexivity].
    rewrite try_create_returns. reflexivity.
  - intros Hraise. exact (persist_line_run_Raise s w _ Hraise eq_refl).
  - intros Hraise. apply persist_Raise in Hraise.
    exact (persist_line_run_Raise s w _ Hraise eq_refl).
Qed.
End Upsert.

(** ** One line run per id *)

Section OneRow.
Context `{Python}.

(** Externalisation writes to the event table only. *)
Lemma persist_events_from_frame (self : span) (evs evs1 : list SpanEvent.t)
  (w w1 : World) :
  Span.persist_events_from self evs w = (evs1, w1) ->
  line_runs w1 = line_runs w /\ span_rows w1 = span_rows w.
Proof.
  revert evs1 w w1. induction evs as [|event rest IH]; simpl; intros evs1 w w1.
  - intros [= <- <-]. split; reflexivity.
  - destruct (Span.persist_events_from self rest _) as [rest1 w2] eqn:Hrest.
    intros [= <- <-]. apply IH in Hrest as [-> ->]. split; reflexivity.
Qed.

Lemma persist_line_runs (s s1 : span) (w w1 : World) :
  Span._persist s w = Ok (s1, w1) ->
  exists w', Span._persist_line_run s w = Ok w' /\ line_runs w1 = line_runs w'.
Proof.
  unfold Span._persist, Span._persist_events. intros Hok.
  apply bind_Ok in Hok as (w' & Hline & Hrest). exists w'. split; [exact Hline|].
  destruct (Span.persist_events_from s (events s) w') as [evs w2] eqn:Hevents.
  injection Hrest as <- <-. simpl.
  apply persist_events_from_frame in Hevents as [-> _]. reflexivity.
Qed.

(** The rows of every id after one span: the span's own id has a row from
    now on, and no id gains a second one. *)
Lemma persist_line_run_rows (s : span) (w w1 : World) (id : attr_value) :
  Span._persist_line_run s w = Ok w1 ->
  ORMLineRun.rows id (line_runs w1)
  = if bool_decide (LineRun._determine_line_run_id s = id)
    then Nat.max 1 (ORMLineRun.rows id (line_runs w))
    else ORMLineRun.rows id (line_runs w).
Proof.
  unfold Span._persist_line_run.
  destruct (parent_id s) as [p|]; intros Hok;
    apply bind_Ok in Hok as (lr & Hbuild & Hwrite);
    apply fmap_Ok in Hwrite as (tbl & Hwrite & ->); simpl.
  - apply from_non_root_span_Ok in Hbuild as (Hid & _).
    rewrite try_create_returns, Hid in Hwrite. injection Hwrite as <-.
    destruct (ORMLineRun.get _ (line_runs w)) as [row|e] eqn:Hget.
    + case_bool_decide as Heq; [|reflexivity]. subst id.
      assert (0 < ORMLineRun.rows (LineRun._determine_line_run_id s) (line_runs w))%nat
        by (apply orm_get_found; eauto).
      lia.
    + apply orm_get_Raise in Hget as [_ Hzero].
      rewrite rows_persist. unfold ORMLineRun.has_id. simpl. rewrite Hid.
      case_bool_decide as Heq; [subst id|]; lia.
  - apply from_root_span_Ok in Hbuild
      as (? & ? & ? & ? & ? & ? & _ & _ & _ & _ & _ & _ & Hid & _).
    rewrite try_update_returns, Hid in Hwrite. injection Hwrite as <-.
    destruct (ORMLineRun.get _ (line_runs w)) as [row|e] eqn:Hget.
    + rewrite rows_update.
      case_bool_decide as Heq; [|reflexivity]. subst id.
      assert (0 < ORMLineRun.rows (LineRun._determine_line_run_id s) (line_runs w))%nat
        by (apply orm_get_found; eauto).
      lia.
    + apply orm_get_Raise in Hget as [_ Hzero].
      rewrite rows_persist. unfold ORMLineRun.has_id. simpl. rewrite Hid.
      case_bool_decide as Heq; [subst id|]; lia.
Qed.

Lemma persist_each_rows (spans : list span) (w w1 : World) (id : attr_value) :
  persist_each spans w = Ok w1 ->
  ORMLineRun.rows id (line_runs w1)
  = if bool_decide (id ∈ map LineRun._determine_line_run_id spans)
    then Nat.max 1 (ORMLineRun.rows id (line_runs w))
    else ORMLineRun.rows id (line_runs w).
Proof.
  revert w. induction spans as [|s rest IH]; simpl; intros w Hok.
  - injection Hok as <-. reflexivity.
  - apply bind_Ok in Hok as ([s1 w2] & Hone & Hrest).
    apply persist_line_runs in Hone as (w' & Hline & Htbl).
    rewrite (IH _ Hrest), Htbl, (persist_line_run_rows s w w' id Hline).
    destruct (decide (LineRun._determine_line_run_id s = id)) as [Hs|Hs].
    + rewrite (bool_decide_eq_true_2 _ Hs).
      rewrite (bool_decide_eq_true_2 (id ∈ _ :: _)) by (apply elem_of_cons; left; congruence).
      case_bool_decide; lia.
    + rewrite (bool_decide_eq_false_2 _ Hs).
      rewrite (bool_decide_ext (id ∈ _ :: _) (id ∈ map LineRun._determine_line_run_id rest));
        [reflexivity|].
      rewrite elem_of_cons. intuition congruence.
Qed.

(** C1. After any finite sequence of spans has been processed one at a
    time, in whatever order and with whatever repetitions, the line-run
    table holds exactly one row for the line run id of each span of the
    sequence: for the spans of one trace, one row for the id they share. The
    table the sequence started from held at most one row for that id. *)
Theorem one_row_per_line_run_id (spans : list span) (w w1 : World) (s : span) :
  persist_each spans w = Ok w1 ->
  s ∈ spans ->
  (ORMLineRun.rows (LineRun._determine_line_run_id s) (line_runs w) <= 1)%nat ->
  ORMLineRun.rows (LineRun._determine_line_run_id s) (line_runs w1) = 1%nat.
Proof.
  intros Hok Hin Hunique.
  rewrite (persist_each_rows spans w w1 _ Hok).
  rewrite bool_decide_eq_true_2; [lia|].
  apply list_elem_of_fmap. exists s. split; [reflexivity | exact Hin].
Qed.

(** A span with a parent changes no row that is already stored. *)
Lemma non_root_keeps_rows (s : span) (w w1 : World) (id : attr_value)
  (row : ORMLineRun.t) :
  parent_id s <> None ->
  Span._persist_line_run s w = Ok w1 ->
  ORMLineRun.get id (line_runs w) = Ok row ->
  ORMLineRun.get id (line_runs w1) = Ok row.
Proof.
  unfold Span._persist_line_run.
  destruct (parent_id s) as [p|]; [|contradiction]. intros _ Hok Hrow.
  apply bind_Ok in Hok as (lr & _ & Hwrite).
  apply fmap_Ok in Hwrite as (tbl & Hwrite & ->). simpl.
  rewrite try_create_returns in Hwrite. injection Hwrite as <-.
  destruct (ORMLineRun.get (LineRun.line_run_id lr) (line_runs w));
    [exact Hrow | apply get_persist_old; exact Hrow].
Qed.

Lemma non_roots_keep_rows (more : list span) (w w1 : World) (id : attr_value)
  (row : ORMLineRun.t) :
  Forall (fun s => parent_id s <> None) more ->
  persist_each more w = Ok w1 ->
  ORMLineRun.get id (line_runs w) = Ok row ->
  ORMLineRun.get id (line_runs w1) = Ok row.
Proof.
  intros Hmore. revert w. induction Hmore as [|s rest Hs _ IH]; simpl; intros w Hok Hrow.
  - injection Hok as <-. exact Hrow.
  - apply bind_Ok in Hok as ([s1 w2] & Hone & Hrest).
    apply persist_line_runs in Hone as (w' & Hline & Htbl).
    apply (IH _ Hrest). rewrite Htbl.
    eapply non_root_keeps_rows; eassumption.
Qed.

(** The row of a root span's id once the root span has been processed. *)
Lemma root_row_stored (root : span) (w w1 : World) :
  parent_id root = None ->
  Span._persist_line_run root w = Ok w1 ->
  exists lr,
    LineRun._from_root_span root (line_runs w) = Ok lr /\
    ORMLineRun.get (LineRun._determine_line_run_id root) (line_runs w1)
    = Ok (LineRun._to_orm_object lr).
Proof.
  unfold Span._persist_line_run. intros -> Hok.
  apply bind_Ok in Hok as (lr & Hbuild & Hwrite).
  apply fmap_Ok in Hwrite as (tbl & Hwrite & ->). simpl.
  exists lr. split; [exact Hbuild|].
  apply from_root_span_Ok in Hbuild
    as (? & ? & ? & ? & ? & ? & _ & _ & _ & _ & _ & _ & Hid & _).
  rewrite try_update_returns in Hwrite. injection Hwrite as <-.
  rewrite <- Hid.
  change (LineRun.line_run_id lr)
    with (ORMLineRun.line_run_id (LineRun._to_orm_object lr)).
  destruct (ORMLineRun.get _ (line_runs w)) eqn:Hget.
  - eapply get_update. exact Hget.
  - eapply get_persist_new. exact Hget.
Qed.

(** C2. Once the root span of a trace has been processed, whatever was
    processed before it, the stored line run has the status, end time,
    duration, inputs and outputs that the reconstruction derives from the
    root span, and processing further spans that have a parent leaves them
    as they are. *)
Theorem root_span_values_take_precedence (root root1 : span) (more : list span)
  (w w1 w2 : World) :
  parent_id root = None ->
  Span._persist root w = Ok (root1, w1) ->
  Forall (fun s => parent_id s <> None) more ->
  persist_each more w1 = Ok w2 ->
  exists lr row,
    LineRun._from_root_span root (line_runs w) = Ok lr /\
    ORMLineRun.get (LineRun._determine_line_run_id root) (line_runs w2) = Ok row /\
    ORMLineRun.status row = LineRun.status lr /\
    ORMLineRun.end_time row = LineRun.end_time lr /\
    ORMLineRun.duration row = LineRun.duration lr /\
    ORMLineRun.inputs row = LineRun.inputs lr /\
    ORMLineRun.outputs row = LineRun.outputs lr /\
    ORMLineRun.status row = SpanStatus.status_code (status root) /\
    ORMLineRun.end_time row = Some (end_time root) /\
    ORMLineRun.duration row = Some (total_seconds (end_time root) (start_time root)) /\
    LineRun._get_inputs_from_span root = Ok (ORMLineRun.inputs row) /\
    LineRun._get_outputs_from_span root = Ok (ORMLineRun.outputs row).
Proof.
  intros Hroot Hone Hmore Hrest.
  apply persist_line_runs in Hone as (w' & Hline & Htbl).
  destruct (root_row_stored root w w' Hroot Hline) as (lr & Hbuild & Hget).
  exists lr, (LineRun._to_orm_object lr). split; [exact Hbuild|]. split.
  - eapply non_roots_keep_rows; [exact Hmore | exact Hrest |].
    rewrite Htbl. exact Hget.
  - apply from_root_span_Ok in Hbuild
      as (? & ? & ? & ? & i & o & _ & _ & _ & _ & Hi & Ho & _ & _ & Hin & Hout
          & Hend & Hstatus & Hduration & _).
    simpl. rewrite Hin, Hout. repeat split; assumption || reflexivity.
Qed.
End OneRow.

Lemma one_row_per_line_run_id_witness :
  exists w1,
    @persist_each sample_python [child_span; root_span; child_span] empty_world
    = Ok w1 /\
    ORMLineRun.rows (LineRun._determine_line_run_id root_span) (line_runs w1) = 1%nat.
Proof.
  eexists. split.
  - vm_compute. reflexivity.
  - apply (@one_row_per_line_run_id sample_python
             [child_span; root_span; child_span] empty_world).
    + vm_compute. reflexivity.
    + apply list_elem_of_In. simpl. right. left. reflexivity.
    + vm_compute. lia.
Defined.

Lemma root_span_values_take_precedence_witness :
  exists root1 w1 w2,
    @Span._persist sample_python root_span
      {| line_runs := []; event_rows := []; span_rows := []; uuid_calls := 0 |}
    = Ok (root1, w1) /\
    @persist_each sample_python [child_span] w1 = Ok w2 /\
    exists lr row,
      @LineRun._from_root_span sample_python root_span [] = Ok lr /\
      ORMLineRun.get (LineRun._determine_line_run_id root_span) (line_runs w2)
      = Ok row /\
      ORMLineRun.status row = LineRun.status lr /\
      ORMLineRun.end_time row = LineRun.end_time lr /\
      ORMLineRun.duration row = LineRun.duration lr /\
      ORMLineRun.inputs row = LineRun.inputs lr /\
      ORMLineRun.outputs row = LineRun.outputs lr /\
      ORMLineRun.status row = SpanStatus.status_code (status root_span) /\
      ORMLineRun.end_time row = Some (end_time root_span) /\
      ORMLineRun.duration row
      = Some (total_seconds (end_time root_span) (start_time root_span)) /\
      @LineRun._get_inputs_from_span sample_python root_span
      = Ok (ORMLineRun.inputs row) /\
      @LineRun._get_outputs_from_span sample_python root_span
      = Ok (ORMLineRun.outputs row).
Proof.
  do 3 eexists. split; [vm_compute; reflexivity|]. split; [vm_compute; reflexivity|].
  eapply (@root_span_values_take_precedence sample_python root_span _ [child_span]
            {| line_runs := []; event_rows := []; span_rows := []; uuid_calls := 0 |}).
  - reflexivity.
  - vm_compute. reflexivity.
  - repeat constructor. discriminate.
  - vm_compute. reflexivity.
Defined.

(** ** Externalisation of events *)

Section Externalisation.
Context `{Python}.

(** [_persist_events] in closed form: event [i] keeps its name and
    timestamp and refers to the [i]-th identifier drawn, under which the
    event as it was is stored. *)
Lemma persist_events_from_closed (self : span) (evs : list SpanEvent.t) (w : World) :
  Span.persist_events_from self evs w
  = (imap (fun i event =>
             SpanEvent.set_attributes event
               (Span.event_reference (uuid4 (uuid_calls w + i)))) evs,
     {| line_runs := line_runs w;
        event_rows :=
          event_rows w
          ++ imap (fun i event =>
                     Span.orm_event self (uuid4 (uuid_calls w + i)) event) evs;
        span_rows := span_rows w;
        uuid_calls := uuid_calls w + length evs |}).
Proof.
  revert w. induction evs as [|event rest IH]; intros w; simpl.
  - rewrite app_nil_r, Nat.add_0_r. destruct w; reflexivity.
  - rewrite IH. simpl. unfold ORMEvent.persist.
    rewrite Nat.add_0_r, <- app_assoc. simpl.
    f_equal; [f_equal | f_equal; [do 2 f_equal | lia]];
      apply imap_ext; intros i e _; simpl;
      replace (S (uuid_calls w + i)) with (uuid_calls w + S i)%nat by lia;
      reflexivity.
Qed.

Lemma persist_events_closed (s : span) (w : World) :
  Span._persist_events s w
  = (set_events s
       (imap (fun i event =>
                SpanEvent.set_attributes event
                  (Span.event_reference (uuid4 (uuid_calls w + i)))) (events s))
       (_external_event_ids s),
     {| line_runs := line_runs w;
        event_rows :=
          event_rows w
          ++ imap (fun i event =>
                     Span.orm_event s (uuid4 (uuid_calls w + i)) event) (events s);
        span_rows := span_rows w;
        uuid_calls := uuid_calls w + length (events s) |}).
Proof.
  unfold Span._persist_events. rewrite persist_events_from_closed. reflexivity.
Qed.

Lemma event_ids_of_new_rows (self : span) (c : nat) (evs : list SpanEvent.t) :
  map ORMEvent.event_id
    (imap (fun i event => Span.orm_event self (uuid4 (c + i)) event) evs)
  = map uuid4 (seq c (length evs)).
Proof.
  revert c. induction evs as [|event rest IH]; intros c; simpl; [reflexivity|].
  rewrite Nat.add_0_r. f_equal. rewrite <- IH. f_equal.
  apply imap_ext. intros i e _. simpl.
  replace (c + S i)%nat with (S c + i)%nat by lia. reflexivity.
Qed.

Lemma orm_event_get_skip (id : string) (old new : ORMEvent.table) :
  id ∉ map ORMEvent.event_id old ->
  ORMEvent.get id (old ++ new) = ORMEvent.get id new.
Proof.
  unfold ORMEvent.get. induction old as [|row old IH]; simpl; intros Hid;
    [reflexivity|].
  rewrite not_elem_of_cons in Hid. destruct Hid as [Hrow Hold].
  rewrite bool_decide_eq_false_2 by congruence. apply IH. exact Hold.
Qed.

Lemma orm_event_get_nth (rows : ORMEvent.table) (i : nat) (row : ORMEvent.t) :
  NoDup (map ORMEvent.event_id rows) ->
  rows !! i = Some row ->
  ORMEvent.get (ORMEvent.event_id row) rows = Ok row.
Proof.
  unfold ORMEvent.get. revert i.
  induction rows as [|r rows IH]; intros i Hnodup Hi; [discriminate|].
  simpl in Hnodup. apply NoDup_cons in Hnodup as [Hr Hnodup]. simpl.
  destruct i as [|i]; simpl in Hi.
  - injection Hi as ->. rewrite bool_decide_eq_true_2 by reflexivity. reflexivity.
  - rewrite bool_decide_eq_false_2; [eapply IH; eassumption|].
    intros Heq. apply Hr. rewrite Heq.
    apply list_elem_of_fmap. exists row. split; [reflexivity|].
    eapply list_elem_of_lookup_2. exact Hi.
Qed.

(** C4. After externalisation every event of the span has exactly one
    attribute, the reference to an identifier that was drawn for it and that
    no stored event had, and resolving that reference against the event
    table returns the event as it was before: name, timestamp and
    attributes. Relied on: the identifiers drawn are fresh, and
    [json.loads] undoes [json.dumps] on the span's events. *)
Theorem externalize_round_trip (s s1 : span) (w w1 : World) :
  draws_fresh (length (events s)) w ->
  Forall (fun event => json_loads_event (json_dumps event) = Some event) (events s) ->
  Span._persist_events s w = (s1, w1) ->
  length (events s1) = length (events s) /\
  forall i event, events s !! i = Some event ->
    exists event1 id,
      events s1 !! i = Some event1 /\
      id = uuid4 (uuid_calls w + i) /\
      (id ∉ map ORMEvent.event_id (event_rows w)) /\
      SpanEvent.attributes event1 = {[ SPAN_EVENTS_ATTRIBUTES_EVENT_ID := AStr id ]} /\
      size (SpanEvent.attributes event1) = 1%nat /\
      Event.get (AStr id) (event_rows w1) = Ok event.
Proof.
  intros [Hnodup Hnew] Hjson. rewrite persist_events_closed. intros [= <- <-].
  simpl. split; [apply length_imap|].
  intros i event Hi.
  exists (SpanEvent.set_attributes event
            (Span.event_reference (uuid4 (uuid_calls w + i)))),
         (uuid4 (uuid_calls w + i)).
  assert (uuid4 (uuid_calls w + i) ∈ draws (length (events s)) w) as Hdrawn.
  { unfold draws. apply list_elem_of_fmap. exists (uuid_calls w + i)%nat.
    split; [reflexivity|]. apply elem_of_seq.
    apply lookup_lt_Some in Hi. lia. }
  assert (uuid4 (uuid_calls w + i) ∉ map ORMEvent.event_id (event_rows w)) as Hfresh.
  { rewrite Forall_forall in Hnew. apply Hnew. exact Hdrawn. }
  split; [rewrite list_lookup_imap, Hi; reflexivity|].
  split; [reflexivity|]. split; [exact Hfresh|].
  split; [reflexivity|]. split; [apply map_size_singleton|].
  unfold Event.get. rewrite orm_event_get_skip by exact Hfresh.
  assert (imap (fun j e => Span.orm_event s (uuid4 (uuid_calls w + j)) e) (events s)
          !! i = Some (Span.orm_event s (uuid4 (uuid_calls w + i)) event)) as Hnth
    by (rewrite list_lookup_imap, Hi; reflexivity).
  assert (NoDup (map ORMEvent.event_id
                   (imap (fun j e => Span.orm_event s (uuid4 (uuid_calls w + j)) e)
                      (events s)))) as Hrows
    by (rewrite event_ids_of_new_rows; exact Hnodup).
  pose proof (orm_event_get_nth _ _ _ Hrows Hnth) as Hget.
  simpl in Hget. rewrite Hget. simpl.
  rewrite Forall_forall in Hjson. rewrite Hjson; [reflexivity|].
  eapply list_elem_of_lookup_2. exact Hi.
Qed.

(** C5, as amended. Externalisation neither reads nor changes the span's
    record of resolved ids, and nothing guards it: applied to a span that
    was externalised already, it draws a new identifier for every event,
    stores under it the event that holds the earlier reference, and
    replaces the earlier reference by the new one. *)
Theorem externalize_again_replaces_references (s s1 s2 : span) (w w1 w2 : World) :
  Span._persist_events s w = (s1, w1) ->
  Span._persist_events s1 w1 = (s2, w2) ->
  _external_event_ids s1 = _external_event_ids s /\
  _external_event_ids s2 = _external_event_ids s /\
  uuid_calls w1 = (uuid_calls w + length (events s))%nat /\
  forall i event, events s !! i = Some event ->
    let event1 :=
      SpanEvent.set_attributes event
        (Span.event_reference (uuid4 (uuid_calls w + i))) in
    let id2 := uuid4 (uuid_calls w1 + i) in
    events s1 !! i = Some event1 /\
    events s2 !! i = Some (SpanEvent.set_attributes event (Span.event_reference id2)) /\
    event_rows w2 !! (length (event_rows w1) + i)%nat
    = Some (Span.orm_event s id2 event1).
Proof.
  rewrite persist_events_closed. intros [= <- <-].
  rewrite persist_events_closed. intros [= <- <-].
  repeat (split; [reflexivity|]).
  intros i event Hi event1 id2. subst event1 id2.
  cbn [events set_events event_rows uuid_calls].
  rewrite !list_lookup_imap, Hi. cbn [fmap option_fmap option_map].
  split; [reflexivity|]. split; [reflexivity|].
  rewrite lookup_app_r by lia.
  replace (length (event_rows w ++ _) + i - length (event_rows w ++ _))%nat
    with i by lia.
  rewrite !list_lookup_imap, Hi. reflexivity.
Qed.
End Externalisation.

(** The stand-in codec decodes what it encodes. *)
Lemma pos_of_string_of_pos (p : positive) : pos_of_string (string_of_pos p) = p.
Proof.
  induction p as [p IH|p IH|]; simpl; congruence.
Qed.

Lemma sample_json_round_trip (event : SpanEvent.t) :
  @json_loads_event sample_python (@json_dumps sample_python event) = Some event.
Proof. simpl. rewrite pos_of_string_of_pos. apply decode_encode. Qed.

Lemma externalize_round_trip_witness :
  exists s1 w1,
    @Span._persist_events sample_python decoded_span empty_world = (s1, w1) /\
    length (events s1) = length (events decoded_span) /\
    forall i event, events decoded_span !! i = Some event ->
      exists event1 id,
        events s1 !! i = Some event1 /\
        id = @uuid4 sample_python (uuid_calls empty_world + i) /\
        (id ∉ map ORMEvent.event_id (event_rows empty_world)) /\
        SpanEvent.attributes event1
        = {[ SPAN_EVENTS_ATTRIBUTES_EVENT_ID := AStr id ]} /\
        size (SpanEvent.attributes event1) = 1%nat /\
        @Event.get sample_python (AStr id) (event_rows w1) = Ok event.
Proof.
  do 2 eexists. split; [reflexivity|].
  apply (@externalize_round_trip sample_python decoded_span _ empty_world).
  - split.
    + vm_compute. apply NoDup_cons. split; [apply not_elem_of_nil | apply NoDup_nil_2].
    + repeat constructor. apply not_elem_of_nil.
  - apply Forall_forall. intros event _. apply sample_json_round_trip.
  - reflexivity.
Defined.

(** C5, as stated, fails. A span is externalised, and externalised again:
    the second pass replaces the reference event-0 by the reference event-1,
    and what event-1 resolves to is the event that holds event-0, a
    reference to a reference. The span's record of resolved ids is empty
    before, between and after. *)
Lemma externalize_twice_is_not_a_no_op :
  exists s1 w1 s2 w2,
    @Span._persist_events sample_python decoded_span empty_world = (s1, w1) /\
    @Span._persist_events sample_python s1 w1 = (s2, w2) /\
    map SpanEvent.attributes (events s1)
    = [ {[ SPAN_EVENTS_ATTRIBUTES_EVENT_ID := AStr "event-0" ]} ] /\
    map SpanEvent.attributes (events s2)
    = [ {[ SPAN_EVENTS_ATTRIBUTES_EVENT_ID := AStr "event-1" ]} ] /\
    events s2 <> events s1 /\
    @Event.get sample_python (AStr "event-1") (event_rows w2)
    = Ok {| SpanEvent.name := SPAN_EVENTS_NAME_PF_INPUTS;
            SpanEvent.timestamp := "2024-01-01T00:00:00";
            SpanEvent.attributes :=
              {[ SPAN_EVENTS_ATTRIBUTES_EVENT_ID := AStr "event-0" ]} |} /\
    _external_event_ids decoded_span = [] /\
    _external_event_ids s1 = [] /\
    _external_event_ids s2 = [].
Proof.
  do 4 eexists. split; [vm_compute; reflexivity|]. split; [vm_compute; reflexivity|].
  split; [vm_compute; reflexivity|]. split; [vm_compute; reflexivity|].
  split; [vm_compute; discriminate|].
  split; [|repeat split; reflexivity].
  vm_compute. reflexivity.
Qed.

Lemma externalize_again_replaces_references_witness :
  exists s1 w1 s2 w2,
    @Span._persist_events sample_python decoded_span empty_world = (s1, w1) /\
    @Span._persist_events sample_python s1 w1 = (s2, w2) /\
    _external_event_ids s1 = _external_event_ids decoded_span /\
    _external_event_ids s2 = _external_event_ids decoded_span /\
    uuid_calls w1 = (uuid_calls empty_world + length (events decoded_span))%nat /\
    forall i event, events decoded_span !! i = Some event ->
      let event1 :=
        SpanEvent.set_attributes event
          (@Span.event_reference (@uuid4 sample_python (uuid_calls empty_world + i))) in
      let id2 := @uuid4 sample_python (uuid_calls w1 + i) in
      events s1 !! i = Some event1 /\
      events s2 !! i
      = Some (SpanEvent.set_attributes event (Span.event_reference id2)) /\
      event_rows w2 !! (length (event_rows w1) + i)%nat
      = Some (@Span.orm_event sample_python decoded_span id2 event1).
Proof.
  do 4 eexists. split; [reflexivity|]. split; [reflexivity|].
  apply (@externalize_again_replaces_references sample_python decoded_span);
    reflexivity.
Defined.

(** ** The export mapping *)

Section RestObject.
Context `{Python}.

Lemma pop_event_ids_all (evs : list SpanEvent.t) :
  Forall (fun event => is_Some (reference_of event)) evs ->
  Span.pop_event_ids evs = Ok (map without_reference evs, omap reference_of evs).
Proof.
  induction 1 as [|event rest [id Hid] _ IH]; simpl; [reflexivity|].
  rewrite (proj2 (getitem_Ok _ _ _) Hid). simpl.
  rewrite IH. simpl. rewrite Hid. reflexivity.
Qed.

Lemma pop_event_ids_missing (evs : list SpanEvent.t) :
  Exists (fun event => reference_of event = None) evs ->
  Span.pop_event_ids evs = Raise (KeyError SPAN_EVENTS_ATTRIBUTES_EVENT_ID).
Proof.
  induction evs as [|event rest IH]; intros Hmissing.
  - inversion Hmissing.
  - simpl. unfold getitem.
    destruct (SpanEvent.attributes event !! SPAN_EVENTS_ATTRIBUTES_EVENT_ID)
      as [id|] eqn:Hid; [|reflexivity].
    simpl. rewrite IH; [reflexivity|].
    inversion Hmissing as [? ? Hhere|? ? Hlater]; subst; [|exact Hlater].
    unfold reference_of in Hhere. congruence.
Qed.

(** [_load_events] records the references it read, in order, and replaces
    the events by what the references resolve to. *)
Lemma load_events_from_Ok (evs fetched : list SpanEvent.t) (ids : list attr_value)
  (tbl : ORMEvent.table) :
  Span.load_events_from evs tbl = Ok (ids, fetched) ->
  ids = omap reference_of evs /\
  length ids = length evs /\
  Forall2 (fun id event => Event.get id tbl = Ok event) ids fetched.
Proof.
  revert ids fetched. induction evs as [|event rest IH]; simpl; intros ids fetched Hok.
  - injection Hok as <- <-. repeat split. constructor.
  - returned.
    match goal with
    | Hrest : Span.load_events_from rest tbl = Ok ?p |- _ => destruct p as [ids' fetched']
    end.
    returned. subst.
    match goal with
    | Hrest : Span.load_events_from rest tbl = Ok _ |- _ =>
        apply IH in Hrest as (-> & Hlen & Hall)
    end.
    match goal with
    | Hid : SpanEvent.attributes event !! _ = Some ?v |- _ =>
        change (reference_of event = Some v) in Hid; rewrite Hid
    end.
    simpl. repeat split; [f_equal; exact Hlen | constructor; assumption].
Qed.

(** C9, as amended. The export mapping of a span renders the start and end
    time with [isoformat]. When ids were recorded by resolution, the list
    [external_event_data_uris] is the recorded ids and the events are
    exported as they stand; after [_load_events] on a span with events these
    are the references that were resolved and the payloads they resolved to.
    When no id was recorded and every event holds a reference, each
    reference is removed from its event and the list is the references in
    order. When no id was recorded and some event holds no reference, as in
    a span that was never externalised, there is no export mapping: the
    [pop] of the event id raises [KeyError]. *)
Theorem to_rest_object_cases (s : span) :
  (forall r, Span._to_rest_object s = Ok r ->
     RestSpan.start_time r = isoformat (start_time s) /\
     RestSpan.end_time r = isoformat (end_time s)) /\
  (_external_event_ids s <> [] ->
   exists r, Span._to_rest_object s = Ok r /\
     RestSpan.external_event_data_uris r = _external_event_ids s /\
     RestSpan.events r = events s) /\
  (forall s0 w,
     _external_event_ids s0 = [] -> events s0 <> [] ->
     Span._load_events s0 w = Ok s ->
     exists r, Span._to_rest_object s = Ok r /\
       RestSpan.external_event_data_uris r = omap reference_of (events s0) /\
       length (RestSpan.external_event_data_uris r) = length (events s0) /\
       RestSpan.events r = events s /\
       Forall2 (fun id event => Event.get id (event_rows w) = Ok event)
         (RestSpan.external_event_data_uris r) (RestSpan.events r)) /\
  (_external_event_ids s = [] ->
   Forall (fun event => is_Some (reference_of event)) (events s) ->
   exists r, Span._to_rest_object s = Ok r /\
     RestSpan.external_event_data_uris r = omap reference_of (events s) /\
     length (RestSpan.external_event_data_uris r) = length (events s) /\
     RestSpan.events r = map without_reference (events s)) /\
  (_external_event_ids s = [] ->
   Exists (fun event => reference_of event = None) (events s) ->
   Span._to_rest_object s = Raise (KeyError SPAN_EVENTS_ATTRIBUTES_EVENT_ID)).
Proof.
  assert (forall s', _external_event_ids s' <> [] ->
            exists r, Span._to_rest_object s' = Ok r /\
              RestSpan.external_event_data_uris r = _external_event_ids s' /\
              RestSpan.events r = events s') as Hrecorded.
  { intros s' Hids. unfold Span._to_rest_object.
    rewrite bool_decide_eq_false_2
      by (destruct (_external_event_ids s'); [contradiction | discriminate]).
    simpl. eexists. repeat split. }
  split; [|split; [|split; [|split]]].
  - unfold Span._to_rest_object. intros r Hr.
    apply bind_Ok in Hr as ([evs uris] & _ & Hr). injection Hr as <-.
    split; reflexivity.
  - apply Hrecorded.
  - intros s0 w Hnone Hsome Hload. unfold Span._load_events in Hload.
    apply bind_Ok in Hload as ([ids fetched] & Hloop & Hset).
    injection Hset as <-.
    apply load_events_from_Ok in Hloop as (-> & Hlen & Hall).
    rewrite Hnone in *. simpl in *.
    destruct (Hrecorded (set_events s0 fetched (omap reference_of (events s0))))
      as (r & Hr & Huris & Hevents).
    { simpl. intros Hnil. rewrite Hnil in Hlen. simpl in Hlen.
      destruct (events s0); [contradiction | discriminate]. }
    exists r. simpl in *. rewrite Huris, Hevents. repeat split; assumption.
  - intros Hnone Hrefs. unfold Span._to_rest_object.
    rewrite Hnone. simpl. rewrite (pop_event_ids_all _ Hrefs). simpl.
    eexists. repeat split. simpl.
    clear Hnone. induction Hrefs as [|event rest [id Hid] _ IH]; simpl;
      [reflexivity|].
    rewrite Hid. simpl. f_equal. exact IH.
  - intros Hnone Hmissing. unfold Span._to_rest_object.
    rewrite Hnone. simpl. rewrite (pop_event_ids_missing _ Hmissing). reflexivity.
Qed.
End RestObject.

(** C9, as stated, fails. A span as the decoder leaves it, whose one event
    still carries its payload and no reference, has no ids recorded; none of
    its events carries only a reference, yet its export does not produce a
    mapping with an empty list: it raises [KeyError]. *)
Lemma to_rest_object_of_decoded_span_raises :
  _external_event_ids decoded_span = [] /\
  omap reference_of (events decoded_span) = [] /\
  @Span._to_rest_object sample_python decoded_span
  = Raise (KeyError SPAN_EVENTS_ATTRIBUTES_EVENT_ID).
Proof. repeat split; vm_compute; reflexivity. Qed.

(** The export of a span read back with its references, and of the same
    span after its events were resolved. *)
Example to_rest_object_after_externalisation :
  exists s1 w1 s2 r1 r2,
    @Span._persist_events sample_python decoded_span empty_world = (s1, w1) /\
    @Span._load_events sample_python s1 w1 = Ok s2 /\
    @Span._to_rest_object sample_python s1 = Ok r1 /\
    @Span._to_rest_object sample_python s2 = Ok r2 /\
    RestSpan.external_event_data_uris r1 = [AStr "event-0"] /\
    map SpanEvent.attributes (RestSpan.events r1) = [∅] /\
    RestSpan.external_event_data_uris r2 = [AStr "event-0"] /\
    RestSpan.events r2 = events decoded_span.
Proof.
  do 5 eexists.
  split; [vm_compute; reflexivity|]. split; [vm_compute; reflexivity|].
  split; [vm_compute; reflexivity|]. split; [vm_compute; reflexivity|].
  repeat split; vm_compute; reflexivity.
Qed.

(** ** Further properties of the reconstruction and of persistence *)

Section Further.
Context `{Python}.
Import SpanAttributeFieldName.

(** The duration of the line run of a root span is the time from the span's
    start to its end. *)
Theorem duration_of_root_span (s : span) (tbl : ORMLineRun.table) (lr : LineRun.t) :
  LineRun._from_root_span s tbl = Ok lr ->
  LineRun.duration lr = Some (end_time s - start_time s) /\
  LineRun.end_time lr = Some (end_time s) /\
  LineRun.start_time lr = start_time s /\
  LineRun.root_span_id lr = Some (span_id s).
Proof.
  unfold LineRun._from_root_span, LineRun._parse_common_args.
  intros Hlr. returned. subst. simpl. repeat split; reflexivity.
Qed.

(** The line run built from a span with a parent is a placeholder: it is
    Running, names no root span and has no inputs, outputs, end time,
    duration, name, kind or token count; its identity and start time are
    the span's. *)
Theorem placeholder_of_non_root_span (s : span) (tbl : ORMLineRun.table)
  (lr : LineRun.t) :
  LineRun._from_non_root_span s tbl = Ok lr ->
  LineRun.status lr = RUNNING_LINE_RUN_STATUS /\
  LineRun.root_span_id lr = None /\
  LineRun.inputs lr = None /\ LineRun.outputs lr = None /\
  LineRun.end_time lr = None /\ LineRun.duration lr = None /\
  LineRun.name lr = None /\ LineRun.kind lr = None /\
  LineRun.cumulative_token_count lr = None /\
  LineRun.line_run_id lr = LineRun._determine_line_run_id s /\
  LineRun.trace_id lr = trace_id s /\
  LineRun.start_time lr = start_time s.
Proof.
  unfold LineRun._from_non_root_span, LineRun._parse_common_args.
  intros Hlr. returned. subst. simpl. repeat split; reflexivity.
Qed.

(** What [_from_root_span] raises when it raises: the missing line number
    of a batch reference, a token count that is no integer, or an inputs or
    outputs event without a payload that is a JSON text. *)
Theorem from_root_span_exceptions (s : span) (tbl : ORMLineRun.table) :
  match LineRun._from_root_span s tbl with
  | Ok _ => True
  | Raise e =>
      e = KeyError LINE_NUMBER \/ e = ValueError \/
      e = KeyError SPAN_EVENTS_ATTRIBUTE_PAYLOAD \/ e = JSONDecodeError \/
      e = TypeError
  end.
Proof.
  destruct (LineRun._from_root_span s tbl) as [lr|e] eqn:Hbuild; [exact I|].
  eapply from_root_span_Raise. exact Hbuild.
Qed.

(** The placeholder of a span is built unless the span names a batch run
    with neither a line number nor a referenced line run: exactly then
    [_from_non_root_span] raises, what it raises is the [KeyError] of the
    line number, and for a span with a parent [_persist_line_run] and
    [_persist] pass that error on to their caller. *)
Theorem non_root_span_raises_on_line_number (s : span) (w : World) :
  ((exists e, LineRun._from_non_root_span s (line_runs w) = Raise e) <->
   attributes s !! REFERENCED_LINE_RUN_ID = None /\
   is_Some (attributes s !! REFERENCED_BATCH_RUN_ID) /\
   attributes s !! LINE_NUMBER = None) /\
  (forall e,
     LineRun._from_non_root_span s (line_runs w) = Raise e ->
     e = KeyError LINE_NUMBER) /\
  (parent_id s <> None ->
   forall e,
     LineRun._from_non_root_span s (line_runs w) = Raise e ->
     Span._persist_line_run s w = Raise e /\ Span._persist s w = Raise e).
Proof.
  split; [|split].
  - unfold LineRun._from_non_root_span, LineRun._parse_common_args,
      LineRun._determine_parent_id, getitem.
    destruct (attributes s !! REFERENCED_LINE_RUN_ID) as [id|];
      [split; [intros [e He]; discriminate | intros [Hnone _]; discriminate]|].
    destruct (attributes s !! REFERENCED_BATCH_RUN_ID) as [r|];
      [|split; [intros [e He]; discriminate
               | intros (_ & [r Hr] & _); discriminate]].
    destruct (attributes s !! LINE_NUMBER) as [n|]; simpl.
    + split; [intros [e He]; discriminate | intros (_ & _ & Hnone); discriminate].
    + split; [intros _; repeat split; eauto | intros _; eexists; reflexivity].
  - intros e. apply from_non_root_span_Raise.
  - intros Hchild e Hraise. unfold Span._persist, Span._persist_line_run.
    destruct (parent_id s) as [p|]; [|contradiction].
    rewrite Hraise. split; reflexivity.
Qed.

(** [_persist] writes the span last and with its events externalised: the
    row added to the span table is the span whose events each hold one
    reference and nothing else, one event row was added per event, and the
    line-run table is the one [_persist_line_run] left. *)
Theorem persisted_span_holds_references (s s1 : span) (w w1 : World) :
  Span._persist s w = Ok (s1, w1) ->
  span_rows w1 = span_rows w ++ [Span._to_orm_object s1] /\
  length (events s1) = length (events s) /\
  Forall (fun event =>
            exists id, SpanEvent.attributes event = Span.event_reference id)
    (events s1) /\
  length (event_rows w1) = (length (event_rows w) + length (events s))%nat /\
  exists w', Span._persist_line_run s w = Ok w' /\ line_runs w1 = line_runs w'.
Proof.
  intros Hok. pose proof (persist_line_runs s s1 w w1 Hok) as Hline.
  unfold Span._persist in Hok.
  apply bind_Ok in Hok as (w' & Hw' & Hrest).
  rewrite persist_events_closed in Hrest. injection Hrest as <- <-. simpl.
  assert (event_rows w' = event_rows w /\ span_rows w' = span_rows w)
    as (Hevents & Hspans).
  { unfold Span._persist_line_run in Hw'.
    destruct (parent_id s); apply bind_Ok in Hw' as (lr & _ & Hw');
      apply fmap_Ok in Hw' as (tbl & _ & ->); split; reflexivity. }
  rewrite Hevents, Hspans. unfold ORMSpan.persist.
  split; [reflexivity|]. split; [apply length_imap|]. split.
  - apply Forall_forall. intros event Hin.
    apply list_elem_of_lookup in Hin as [i Hi].
    rewrite list_lookup_imap in Hi.
    destruct (events s !! i) as [event0|]; [|discriminate].
    injection Hi as <-. eexists. reflexivity.
  - split; [rewrite length_app, length_imap; reflexivity | exact Hline].
Qed.

(** A reference that no stored event answers to is not passed over in
    silence: [_load_events] raises the NotFound of the event table. *)
Theorem load_events_unknown_reference (s : span) (w : World)
  (event : SpanEvent.t) (rest : list SpanEvent.t) (id : string) :
  events s = event :: rest ->
  reference_of event = Some (AStr id) ->
  id ∉ map ORMEvent.event_id (event_rows w) ->
  Span._load_events s w = Raise EventNotFoundError.
Proof.
  intros Hevents Href Hunknown. unfold Span._load_events. rewrite Hevents. simpl.
  rewrite (proj2 (getitem_Ok _ _ _) Href). simpl.
  assert (ORMEvent.get id (event_rows w) = Raise EventNotFoundError) as ->;
    [|reflexivity].
  unfold ORMEvent.get.
  destruct (List.find _ (event_rows w)) as [row|] eqn:Hfind; [|reflexivity].
  apply List.find_some in Hfind as [Hin Hrow].
  apply bool_decide_eq_true in Hrow. exfalso. apply Hunknown.
  apply list_elem_of_fmap. exists row.
  split; [congruence | apply list_elem_of_In; exact Hin].
Qed.
End Further.

(** The row of a span leaves out what is empty. *)
Theorem to_orm_object_leaves_out_empty (s : span) :
  (attributes s = ∅ -> ORMSpan.attributes (Span._to_orm_object s) = None) /\
  (links s = [] -> ORMSpan.links (Span._to_orm_object s) = None) /\
  (events s = [] -> ORMSpan.events (Span._to_orm_object s) = None) /\
  (attributes s <> ∅ ->
   ORMSpan.attributes (Span._to_orm_object s) = Some (attributes s)) /\
  (links s <> [] -> ORMSpan.links (Span._to_orm_object s) = Some (links s)) /\
  (events s <> [] -> ORMSpan.events (Span._to_orm_object s) = Some (events s)).
Proof.
  unfold Span._to_orm_object. simpl. repeat split.
  - intros ->. rewrite map_size_empty. reflexivity.
  - intros ->. reflexivity.
  - intros ->. reflexivity.
  - intros Hne. rewrite bool_decide_eq_true_2; [reflexivity|].
    apply map_size_non_empty_iff in Hne. lia.
  - destruct (links s); [contradiction | reflexivity].
  - destruct (events s); [contradiction | reflexivity].
Qed.

Lemma duration_of_root_span_witness :
  exists lr,
    @LineRun._from_root_span sample_python root_span [] = Ok lr /\
    LineRun.duration lr = Some 1500000.
Proof.
  eexists. split; [vm_compute; reflexivity|].
  apply (@duration_of_root_span sample_python root_span []).
  vm_compute. reflexivity.
Defined.

Lemma placeholder_of_non_root_span_witness :
  exists lr,
    @LineRun._from_non_root_span child_span [] = Ok lr /\
    LineRun.status lr = RUNNING_LINE_RUN_STATUS.
Proof.
  eexists. split; [vm_compute; reflexivity|].
  apply (@placeholder_of_non_root_span child_span []).
  vm_compute. reflexivity.
Defined.

Lemma non_root_span_raises_on_line_number_witness :
  @Span._persist sample_python batch_span_without_line_number empty_world
  = Raise (KeyError SpanAttributeFieldName.LINE_NUMBER).
Proof.
  destruct (@non_root_span_raises_on_line_number sample_python
              batch_span_without_line_number empty_world)
    as (_ & _ & Hpersist).
  apply Hpersist; [discriminate | vm_compute; reflexivity].
Defined.

Lemma persisted_span_holds_references_witness :
  exists s1 w1,
    @Span._persist sample_python decoded_span empty_world = Ok (s1, w1) /\
    span_rows w1 = span_rows empty_world ++ [Span._to_orm_object s1].
Proof.
  do 2 eexists. split; [vm_compute; reflexivity|].
  refine (proj1 (@persisted_span_holds_references sample_python decoded_span _
                   empty_world _ _)).
  vm_compute. reflexivity.
Defined.

Lemma load_events_unknown_reference_witness :
  exists s1 w1,
    @Span._persist_events sample_python decoded_span empty_world = (s1, w1) /\
    @Span._load_events sample_python s1 empty_world = Raise EventNotFoundError.
Proof.
  do 2 eexists. split; [vm_compute; reflexivity|].
  eapply (@load_events_unknown_reference sample_python).
  - reflexivity.
  - vm_compute. reflexivity.
  - apply not_elem_of_nil.
Defined.

(** ** The decoder *)

Lemma unhex_hex_byte (b : Byte.byte) (s : string) :
  unhex (String.append (hex_of_byte b) s) = (bs ← unhex s; Some (b :: bs)).
Proof. destruct b; reflexivity. Qed.

Lemma unhex_hex (bs : list Byte.byte) : unhex (hex bs) = Some bs.
Proof.
  induction bs as [|b rest IH]; [reflexivity|].
  cbn [hex]. rewrite unhex_hex_byte, IH. reflexivity.
Qed.

Lemma hex_inj (a b : list Byte.byte) : hex a = hex b -> a = b.
Proof.
  intros Heq. apply (f_equal unhex) in Heq. rewrite !unhex_hex in Heq.
  congruence.
Qed.

Lemma string_length_append (a b : string) :
  String.length (String.append a b) = (String.length a + String.length b)%nat.
Proof. induction a as [|c a IH]; simpl; [reflexivity | rewrite IH; reflexivity]. Qed.

Lemma hex_length (bs : list Byte.byte) :
  String.length (hex bs) = (2 * length bs)%nat.
Proof.
  induction bs as [|b rest IH]; [reflexivity|].
  cbn [hex]. rewrite string_length_append, IH. unfold hex_of_byte. simpl. lia.
Qed.

Lemma hex_empty (bs : list Byte.byte) : hex bs = EmptyString <-> bs = [].
Proof.
  split; [|intros ->; reflexivity].
  destruct bs as [|b rest]; [reflexivity | discriminate].
Qed.

Section Decoder.
Context `{Python} `{Protobuf}.

(** A wire span decodes to a root span exactly when its parent span id is
    empty; otherwise the parent id is the hexadecimal form of the bytes. The
    orchestrator then rebuilds the authoritative line run for the first and
    the placeholder for the second. *)
Theorem decoded_root_iff_no_parent_bytes (obj : PBSpan.t)
  (resource : gmap string (gmap string attr_value)) (w : World) :
  (parent_id (Span._from_protobuf_object obj resource) = None <->
   PBSpan.parent_span_id obj = []) /\
  (PBSpan.parent_span_id obj <> [] ->
   parent_id (Span._from_protobuf_object obj resource)
   = Some (hex (PBSpan.parent_span_id obj))) /\
  (PBSpan.parent_span_id obj = [] ->
   Span._persist_line_run (Span._from_protobuf_object obj resource) w
   = (line_run ← LineRun._from_root_span
                   (Span._from_protobuf_object obj resource) (line_runs w);
      set_line_runs w <$> LineRun._try_update line_run (line_runs w))) /\
  (PBSpan.parent_span_id obj <> [] ->
   Span._persist_line_run (Span._from_protobuf_object obj resource) w
   = (line_run ← LineRun._from_non_root_span
                   (Span._from_protobuf_object obj resource) (line_runs w);
      set_line_runs w <$> LineRun._try_create line_run (line_runs w))).
Proof.
  assert (parent_id (Span._from_protobuf_object obj resource)
          = if bool_decide (PBSpan.parent_span_id obj = [])
            then None else Some (hex (PBSpan.parent_span_id obj))) as Hparent.
  { unfold Span._from_protobuf_object, Span.__init__. simpl.
    rewrite (bool_decide_ext _ _ (hex_empty (PBSpan.parent_span_id obj))).
    reflexivity. }
  unfold Span._persist_line_run. rewrite Hparent.
  repeat split.
  - case_bool_decide; [trivial | discriminate].
  - intros ->. reflexivity.
  - intros Hne. rewrite bool_decide_eq_false_2 by exact Hne. reflexivity.
  - intros ->. reflexivity.
  - intros Hne. rewrite bool_decide_eq_false_2 by exact Hne. reflexivity.
Qed.

(** Decoding keeps identities apart: two wire spans decode to the same trace
    id (span id) exactly when their trace id (span id) bytes are the same,
    an id has two characters per byte, and the decoded context names the
    span's own trace id and span id. *)
Theorem decoded_ids_are_faithful (a b : PBSpan.t)
  (ra rb : gmap string (gmap string attr_value)) :
  (trace_id (Span._from_protobuf_object a ra)
   = trace_id (Span._from_protobuf_object b rb) <->
   PBSpan.trace_id a = PBSpan.trace_id b) /\
  (span_id (Span._from_protobuf_object a ra)
   = span_id (Span._from_protobuf_object b rb) <->
   PBSpan.span_id a = PBSpan.span_id b) /\
  String.length (trace_id (Span._from_protobuf_object a ra))
  = (2 * length (PBSpan.trace_id a))%nat /\
  context (Span._from_protobuf_object a ra) !! SpanContextFieldName.TRACE_ID
  = Some (trace_id (Span._from_protobuf_object a ra)) /\
  context (Span._from_protobuf_object a ra) !! SpanContextFieldName.SPAN_ID
  = Some (span_id (Span._from_protobuf_object a ra)).
Proof.
  unfold Span._from_protobuf_object, Span.__init__. simpl. repeat split.
  - apply hex_inj.
  - intros ->. reflexivity.
  - apply hex_inj.
  - intros ->. reflexivity.
  - rewrite hex_length. lia.
Qed.

(** A decoded span has one event per wire event, in the order of the wire,
    each with the name of its wire event, and no event id recorded; so it is
    persisted with as many identifiers drawn as the wire span has events. *)
Theorem decoded_events_follow_the_wire (obj : PBSpan.t)
  (resource : gmap string (gmap string attr_value)) (w : World) :
  map SpanEvent.name (events (Span._from_protobuf_object obj resource))
  = map PBSpan.Event.name (PBSpan.events obj) /\
  _external_event_ids (Span._from_protobuf_object obj resource) = [] /\
  uuid_calls (snd (Span._persist_events (Span._from_protobuf_object obj resource) w))
  = (uuid_calls w + length (PBSpan.events obj))%nat /\
  length (event_rows
            (snd (Span._persist_events (Span._from_protobuf_object obj resource) w)))
  = (length (event_rows w) + length (PBSpan.events obj))%nat.
Proof.
  rewrite persist_events_closed.
  unfold Span._from_protobuf_object, Span.__init__, Span._from_protobuf_events.
  simpl. rewrite length_app, length_imap, !length_map, map_map. simpl.
  repeat split; reflexivity.
Qed.
End Decoder.

(** ** Reading back what was persisted *)

Lemma span_from_orm_to_orm (s : span) :
  Span._from_orm_object (Span._to_orm_object s) = set_events s (events s) [].
Proof.
  destruct s as [t i n c k p st en sta attrs lks evs res ids].
  unfold Span._from_orm_object, Span._to_orm_object, Span.__init__, set_events.
  simpl. f_equal.
  - case_bool_decide as Hsize; [reflexivity|]. simpl. symmetry.
    apply map_size_empty_iff. lia.
  - destruct lks; reflexivity.
  - destruct evs; reflexivity.
Qed.

(** A span written to a row and read back is the span it was, with no
    event id recorded: attributes, links and events that were empty are
    stored as absent and come back empty. *)
Theorem span_row_round_trip (s : span) :
  Span._from_orm_object (Span._to_orm_object s) = set_events s (events s) [] /\
  (_external_event_ids s = [] ->
   Span._from_orm_object (Span._to_orm_object s) = s) /\
  Span._to_orm_object (Span._from_orm_object (Span._to_orm_object s))
  = Span._to_orm_object s.
Proof.
  split; [apply span_from_orm_to_orm|]. split.
  - intros Hids. rewrite span_from_orm_to_orm. destruct s. simpl in *.
    subst. reflexivity.
  - rewrite span_from_orm_to_orm. reflexivity.
Qed.

(** A row whose attributes, links and events are absent or not empty is the
    row of the span read from it; a row that holds an empty dictionary or
    list comes back with that field absent. *)
Theorem span_row_is_normalised (row : ORMSpan.t) :
  (ORMSpan.attributes row <> Some ∅ ->
   ORMSpan.links row <> Some [] ->
   ORMSpan.events row <> Some [] ->
   Span._to_orm_object (Span._from_orm_object row) = row) /\
  (ORMSpan.attributes row = Some ∅ ->
   ORMSpan.attributes (Span._to_orm_object (Span._from_orm_object row)) = None) /\
  (ORMSpan.links row = Some [] ->
   ORMSpan.links (Span._to_orm_object (Span._from_orm_object row)) = None) /\
  (ORMSpan.events row = Some [] ->
   ORMSpan.events (Span._to_orm_object (Span._from_orm_object row)) = None).
Proof.
  destruct row as [t i n c k p st en sta attrs lks evs res].
  unfold Span._from_orm_object, Span._to_orm_object, Span.__init__. simpl.
  repeat split.
  - intros Hattrs Hlinks Hevents. f_equal.
    + destruct attrs as [a|]; simpl; [|reflexivity].
      rewrite bool_decide_eq_true_2; [reflexivity|].
      assert (a <> ∅) as Hne by congruence.
      apply map_size_non_empty_iff in Hne. lia.
    + destruct lks as [[|l ls]|]; simpl; try reflexivity. contradiction.
    + destruct evs as [[|e es]|]; simpl; try reflexivity. contradiction.
  - intros ->. simpl. rewrite map_size_empty. reflexivity.
  - intros ->. reflexivity.
  - intros ->. reflexivity.
Qed.

(** A line run written to a row and read back has every field it had, and
    a row read and written again is the row it was. The row has no column
    for [evaluations], which is therefore no part of [LineRun.t]. *)
Theorem line_run_row_round_trip (lr : LineRun.t) (row : ORMLineRun.t) :
  @LineRun._from_orm_object (LineRun._to_orm_object lr) = lr /\
  LineRun._to_orm_object (@LineRun._from_orm_object row) = row.
Proof. destruct lr, row. split; reflexivity. Qed.

Section ReadBack.
Context `{Python}.

Lemma persist_line_run_frame (s : span) (w w1 : World) :
  Span._persist_line_run s w = Ok w1 ->
  event_rows w1 = event_rows w /\ span_rows w1 = span_rows w /\
  uuid_calls w1 = uuid_calls w.
Proof.
  unfold Span._persist_line_run.
  destruct (parent_id s); intros Hok; apply bind_Ok in Hok as (lr & _ & Hok);
    apply fmap_Ok in Hok as (tbl & _ & ->); repeat split; reflexivity.
Qed.

(** What [_persist] returns, in closed form. *)
Lemma persist_closed (s s1 : span) (w w1 : World) :
  Span._persist s w = Ok (s1, w1) ->
  exists w',
    Span._persist_line_run s w = Ok w' /\
    s1 = set_events s
           (imap (fun i event =>
                    SpanEvent.set_attributes event
                      (Span.event_reference (uuid4 (uuid_calls w + i)))) (events s))
           (_external_event_ids s) /\
    line_runs w1 = line_runs w' /\
    event_rows w1
    = event_rows w
      ++ imap (fun i event => Span.orm_event s (uuid4 (uuid_calls w + i)) event)
           (events s) /\
    span_rows w1 = span_rows w ++ [Span._to_orm_object s1] /\
    uuid_calls w1 = (uuid_calls w + length (events s))%nat.
Proof.
  unfold Span._persist. intros Hok.
  apply bind_Ok in Hok as (w' & Hline & Hrest). exists w'.
  split; [exact Hline|].
  apply persist_line_run_frame in Hline as (Hevents & Hspans & Hcalls).
  rewrite persist_events_closed in Hrest. injection Hrest as <- <-. simpl.
  rewrite Hevents, Hspans, Hcalls. repeat split; reflexivity.
Qed.

(** The event stored for the [i]-th event of a span is what its reference
    resolves to, when the identifiers drawn were fresh. *)
Lemma stored_event_resolves (s : span) (old : ORMEvent.table) (c i : nat)
  (event : SpanEvent.t) :
  NoDup (map uuid4 (seq c (length (events s)))) ->
  Forall (fun id => id ∉ map ORMEvent.event_id old)
    (map uuid4 (seq c (length (events s)))) ->
  json_loads_event (json_dumps event) = Some event ->
  events s !! i = Some event ->
  Event.get (AStr (uuid4 (c + i)))
    (old ++ imap (fun j e => Span.orm_event s (uuid4 (c + j)) e) (events s))
  = Ok event.
Proof.
  intros Hnodup Hnew Hjson Hi.
  assert (uuid4 (c + i) ∉ map ORMEvent.event_id old) as Hfresh.
  { rewrite Forall_forall in Hnew. apply Hnew.
    apply list_elem_of_fmap. exists (c + i)%nat. split; [reflexivity|].
    apply elem_of_seq. apply lookup_lt_Some in Hi. lia. }
  unfold Event.get. rewrite orm_event_get_skip by exact Hfresh.
  assert (imap (fun j e => Span.orm_event s (uuid4 (c + j)) e) (events s) !! i
          = Some (Span.orm_event s (uuid4 (c + i)) event)) as Hnth
    by (rewrite list_lookup_imap, Hi; reflexivity).
  assert (NoDup (map ORMEvent.event_id
                   (imap (fun j e => Span.orm_event s (uuid4 (c + j)) e) (events s))))
    as Hrows by (rewrite event_ids_of_new_rows; exact Hnodup).
  pose proof (orm_event_get_nth _ _ _ Hrows Hnth) as Hget.
  simpl in Hget. rewrite Hget. simpl. rewrite Hjson. reflexivity.
Qed.

(** Events that hold references are loaded as what the references resolve
    to. *)
Lemma load_events_from_references (refs originals : list SpanEvent.t)
  (tbl : ORMEvent.table) :
  Forall2 (fun ref event =>
             exists id, reference_of ref = Some id /\ Event.get id tbl = Ok event)
    refs originals ->
  Span.load_events_from refs tbl = Ok (omap reference_of refs, originals).
Proof.
  induction 1 as [|ref event refs originals (id & Href & Hget) _ IH]; simpl;
    [reflexivity|].
  rewrite (proj2 (getitem_Ok _ _ _) Href). simpl. rewrite Hget. simpl.
  rewrite IH. simpl. rewrite Href. reflexivity.
Qed.

Lemma references_of_externalised (c : nat) (evs : list SpanEvent.t) :
  omap reference_of
    (imap (fun i event =>
             SpanEvent.set_attributes event (Span.event_reference (uuid4 (c + i))))
       evs)
  = map (fun n => AStr (uuid4 n)) (seq c (length evs)).
Proof.
  revert c. induction evs as [|event rest IH]; intros c; simpl; [reflexivity|].
  unfold reference_of at 1. simpl. unfold Span.event_reference.
  rewrite lookup_singleton_eq, Nat.add_0_r. f_equal.
  rewrite <- IH. f_equal. apply imap_ext. intros i e _. simpl.
  replace (c + S i)%nat with (S c + i)%nat by lia. reflexivity.
Qed.

(** The round trip through the tables. A span is persisted; the row that
    was written for it is read back and its events are loaded: the events
    are the ones the span came with, the ids recorded are the identifiers
    drawn for them, and the export mapping of the loaded span lists these
    ids beside the full events. Relied on: the identifiers drawn are fresh,
    and [json.loads] undoes [json.dumps] on the span's events. *)
Theorem persisted_span_reads_back (s s1 : span) (w w1 : World) :
  draws_fresh (length (events s)) w ->
  Forall (fun event => json_loads_event (json_dumps event) = Some event) (events s) ->
  Span._persist s w = Ok (s1, w1) ->
  exists row s2 r,
    last (span_rows w1) = Some row /\
    Span._load_events (Span._from_orm_object row) w1 = Ok s2 /\
    events s2 = events s /\
    _external_event_ids s2 = map AStr (draws (length (events s)) w) /\
    Span._to_rest_object s2 = Ok r /\
    RestSpan.events r = events s /\
    RestSpan.external_event_data_uris r = map AStr (draws (length (events s)) w).
Proof.
  intros [Hnodup Hnew] Hjson Hok.
  apply persist_closed in Hok
    as (w' & _ & Hs1 & _ & Hevents & Hspans & _).
  exists (Span._to_orm_object s1). rewrite Hspans, last_snoc.
  rewrite span_from_orm_to_orm. unfold Span._load_events.
  rewrite Hevents. subst s1. cbn [events set_events _external_event_ids].
  rewrite (load_events_from_references _ (events s)).
  - rewrite references_of_externalised. simpl.
    unfold draws. rewrite map_map. unfold Span._to_rest_object.
    destruct (events s) as [|event rest]; simpl;
      do 2 eexists; repeat split; reflexivity.
  - apply Forall2_same_length_lookup_2; [apply length_imap|].
    intros i ref event Href Hi. rewrite list_lookup_imap, Hi in Href.
    injection Href as <-. exists (AStr (uuid4 (uuid_calls w + i))). split.
    + unfold reference_of, Span.event_reference. simpl.
      apply lookup_singleton_eq.
    + apply stored_event_resolves; try assumption.
      rewrite Forall_forall in Hjson. apply Hjson.
      eapply list_elem_of_lookup_2. exact Hi.
Qed.

(** The row of a persisted span, read back and exported without loading its
    events, lists the identifiers drawn for the events, and the exported
    events keep their names and timestamps and have no attributes left. *)
Theorem persisted_span_exports_references (s s1 : span) (w w1 : World) :
  Span._persist s w = Ok (s1, w1) ->
  exists row r,
    last (span_rows w1) = Some row /\
    Span._to_rest_object (Span._from_orm_object row) = Ok r /\
    RestSpan.external_event_data_uris r = map AStr (draws (length (events s)) w) /\
    RestSpan.events r = map (fun event => SpanEvent.set_attributes event ∅) (events s).
Proof.
  intros Hok.
  apply persist_closed in Hok as (w' & _ & Hs1 & _ & _ & Hspans & _).
  exists (Span._to_orm_object s1). rewrite Hspans, last_snoc.
  rewrite span_from_orm_to_orm. unfold Span._to_rest_object.
  subst s1. cbn [events set_events _external_event_ids]. simpl.
  rewrite pop_event_ids_all.
  - simpl. eexists. split; [reflexivity|]. split; [reflexivity|]. simpl. split.
    + rewrite references_of_externalised. unfold draws. rewrite map_map.
      reflexivity.
    + apply list_eq. intros i.
      rewrite !list_lookup_fmap, list_lookup_imap.
      destruct (events s !! i) as [event|]; [|reflexivity]. simpl.
      unfold without_reference, SpanEvent.set_attributes, Span.event_reference.
      simpl. rewrite delete_singleton_eq. reflexivity.
  - apply Forall_forall. intros event Hin.
    apply list_elem_of_lookup in Hin as [i Hi].
    rewrite list_lookup_imap in Hi.
    destruct (events s !! i); [|discriminate]. injection Hi as <-.
    eexists. unfold reference_of, Span.event_reference. simpl.
    apply lookup_singleton_eq.
Qed.

(** Persisting a span disturbs no event stored before: what an id resolved
    to, it still resolves to. *)
Theorem persist_keeps_stored_events (s s1 : span) (w w1 : World)
  (id : attr_value) (event : SpanEvent.t) :
  Span._persist s w = Ok (s1, w1) ->
  Event.get id (event_rows w) = Ok event ->
  Event.get id (event_rows w1) = Ok event.
Proof.
  intros Hok Hget.
  apply persist_closed in Hok as (w' & _ & _ & _ & -> & _).
  unfold Event.get in *. destruct id as [str|z]; [|exact Hget].
  apply bind_Ok in Hget as (row & Hrow & Hjson).
  assert (ORMEvent.get str
            (event_rows w
             ++ imap (fun i e => Span.orm_event s (uuid4 (uuid_calls w + i)) e)
                  (events s)) = Ok row) as ->; [|exact Hjson].
  revert Hrow. unfold ORMEvent.get. generalize (event_rows w).
  induction l as [|r l IH]; simpl; [discriminate|].
  destruct (bool_decide (ORMEvent.event_id r = str)); [trivial | exact IH].
Qed.
End ReadBack.

(** ** The line-run table under repeated processing *)

Section Repeated.
Context `{Python}.

Lemma update_without_rows (row : ORMLineRun.t) (tbl : ORMLineRun.table) :
  ORMLineRun.rows (ORMLineRun.line_run_id row) tbl = 0%nat ->
  ORMLineRun._update row tbl = tbl.
Proof.
  unfold ORMLineRun.rows, ORMLineRun._update.
  induction tbl as [|r tbl IH]; simpl; [reflexivity|].
  destruct (ORMLineRun.has_id (ORMLineRun.line_run_id row) r); simpl;
    [discriminate|].
  intros Hzero. rewrite IH by exact Hzero. reflexivity.
Qed.

Lemma update_update (row : ORMLineRun.t) (tbl : ORMLineRun.table) :
  ORMLineRun._update row (ORMLineRun._update row tbl) = ORMLineRun._update row tbl.
Proof.
  unfold ORMLineRun._update. rewrite List.map_map. apply List.map_ext.
  intros r. destruct (ORMLineRun.has_id (ORMLineRun.line_run_id row) r) eqn:Hr;
    [|rewrite Hr; reflexivity].
  rewrite (proj2 (has_id_true (ORMLineRun.line_run_id row) row) eq_refl).
  reflexivity.
Qed.

(** Creating or updating a line run a second time changes nothing: the
    table after [_try_update] (after [_try_create]) is a fixed point of the
    same call, and a placeholder arriving after the authoritative line run
    leaves it alone. *)
Theorem upsert_is_idempotent (lr placeholder : LineRun.t)
  (tbl : ORMLineRun.table) :
  (forall t1, LineRun._try_update lr tbl = Ok t1 ->
     LineRun._try_update lr t1 = Ok t1) /\
  (forall t1, LineRun._try_create lr tbl = Ok t1 ->
     LineRun._try_create lr t1 = Ok t1) /\
  (forall t1, LineRun._try_update lr tbl = Ok t1 ->
     LineRun.line_run_id placeholder = LineRun.line_run_id lr ->
     LineRun._try_create placeholder t1 = Ok t1).
Proof.
  assert (forall t1, LineRun._try_update lr tbl = Ok t1 ->
            ORMLineRun.get (LineRun.line_run_id lr) t1
            = Ok (LineRun._to_orm_object lr) /\
            ORMLineRun._update (LineRun._to_orm_object lr) t1 = t1) as Hupdate.
  { intros t1. rewrite try_update_returns. intros [= <-].
    change (LineRun.line_run_id lr)
      with (ORMLineRun.line_run_id (LineRun._to_orm_object lr)).
    destruct (ORMLineRun.get _ tbl) as [old|e] eqn:Hget.
    - split; [eapply get_update; exact Hget | apply update_update].
    - split; [eapply get_persist_new; exact Hget|].
      apply orm_get_Raise in Hget as [_ Hzero].
      unfold ORMLineRun._update, ORMLineRun.persist.
      rewrite List.map_app. cbn [List.map].
      rewrite (proj2 (has_id_true _ (LineRun._to_orm_object lr)) eq_refl).
      f_equal. apply (update_without_rows _ _ Hzero). }
  split; [|split].
  - intros t1 Hok. destruct (Hupdate t1 Hok) as [Hget Hsame].
    rewrite try_update_returns, Hget, Hsame. reflexivity.
  - intros t1. rewrite !try_create_returns. intros [= <-].
    destruct (ORMLineRun.get _ tbl) as [old|e] eqn:Hget.
    + rewrite Hget. reflexivity.
    + change (LineRun.line_run_id lr)
        with (ORMLineRun.line_run_id (LineRun._to_orm_object lr)) in *.
      rewrite (get_persist_new _ _ _ Hget). reflexivity.
  - intros t1 Hok Hid. destruct (Hupdate t1 Hok) as [Hget _].
    rewrite try_create_returns, Hid, Hget. reflexivity.
Qed.

(** Processing spans keeps the line run ids of the table unique and deletes
    no row: if no id had two rows before a sequence of spans, none has two
    after it, and every id has at least the rows it had. *)
Theorem line_run_ids_stay_unique (spans : list span) (w w1 : World) :
  persist_each spans w = Ok w1 ->
  (forall id, ORMLineRun.rows id (line_runs w) <= 1)%nat ->
  (forall id, ORMLineRun.rows id (line_runs w1) <= 1)%nat /\
  (forall id, ORMLineRun.rows id (line_runs w) <= ORMLineRun.rows id (line_runs w1))%nat.
Proof.
  intros Hok Hunique. split; intros id;
    rewrite (persist_each_rows spans w w1 id Hok);
    specialize (Hunique id); case_bool_decide; lia.
Qed.

(** When the root span is the first span of its line run, the line run read
    back from the table is the one rebuilt from the span, and it is the one
    row added. *)
Theorem root_first_reads_back (s : span) (w w1 : World) :
  parent_id s = None ->
  ORMLineRun.rows (LineRun._determine_line_run_id s) (line_runs w) = 0%nat ->
  Span._persist_line_run s w = Ok w1 ->
  exists lr row,
    LineRun._from_root_span s (line_runs w) = Ok lr /\
    ORMLineRun.get (LineRun._determine_line_run_id s) (line_runs w1) = Ok row /\
    @LineRun._from_orm_object row = lr /\
    line_runs w1 = line_runs w ++ [row].
Proof.
  unfold Span._persist_line_run. intros -> Hzero Hok.
  apply bind_Ok in Hok as (lr & Hbuild & Hwrite).
  apply fmap_Ok in Hwrite as (tbl & Hwrite & ->). simpl.
  exists lr, (LineRun._to_orm_object lr). split; [exact Hbuild|].
  apply from_root_span_Ok in Hbuild
    as (? & ? & ? & ? & ? & ? & _ & _ & _ & _ & _ & _ & Hid & _).
  rewrite try_update_returns in Hwrite. injection Hwrite as <-.
  destruct (ORMLineRun.get (LineRun.line_run_id lr) (line_runs w)) as [old|e] eqn:Hget.
  - exfalso. rewrite Hid in Hget.
    assert (0 < ORMLineRun.rows (LineRun._determine_line_run_id s) (line_runs w))%nat
      by (apply orm_get_found; eauto).
    lia.
  - rewrite <- Hid. split; [|split].
    + change (LineRun.line_run_id lr)
        with (ORMLineRun.line_run_id (LineRun._to_orm_object lr)) in *.
      eapply get_persist_new. exact Hget.
    + destruct lr. reflexivity.
    + reflexivity.
Qed.

(** The inputs of a line run come from the first event named as the inputs
    event: events before it are passed over, events after it are never
    read, and without such an event there are no inputs. The first such
    event decides also when it has no payload: the lookup raises. *)
Theorem inputs_from_first_inputs_event (s : span) (before after : list SpanEvent.t)
  (event : SpanEvent.t) :
  (Forall (fun e => SpanEvent.name e <> SPAN_EVENTS_NAME_PF_INPUTS) (events s) ->
   LineRun._get_inputs_from_span s = Ok None) /\
  (events s = before ++ event :: after ->
   Forall (fun e => SpanEvent.name e <> SPAN_EVENTS_NAME_PF_INPUTS) before ->
   SpanEvent.name event = SPAN_EVENTS_NAME_PF_INPUTS ->
   LineRun._get_inputs_from_span s
   = (payload ← getitem (SpanEvent.attributes event) SPAN_EVENTS_ATTRIBUTE_PAYLOAD;
      py_json_loads payload)).
Proof.
  unfold LineRun._get_inputs_from_span. split.
  - generalize (events s). induction 1 as [|e rest Hname _ IH]; simpl;
      [reflexivity|].
    rewrite bool_decide_eq_false_2 by exact Hname. exact IH.
  - intros -> Hbefore Hname.
    induction Hbefore as [|e rest Hother _ IH]; simpl.
    + rewrite bool_decide_eq_true_2 by exact Hname. reflexivity.
    + rewrite bool_decide_eq_false_2 by exact Hother. exact IH.
Qed.
End Repeated.

(** ** Evaluations *)

Section Evaluations.
Implicit Types (self evaluation : LineRun.object) (evals : list LineRun.object).

Lemma append_evaluations_snoc self evals evaluation :
  @LineRun._append_evaluations self (evals ++ [evaluation])
  = @LineRun.append_evaluation (@LineRun._append_evaluations self evals) evaluation.
Proof. unfold LineRun._append_evaluations. apply fold_left_app. Qed.

Lemma append_evaluations_fields self evals :
  @LineRun.fields (@LineRun._append_evaluations self evals) = @LineRun.fields self.
Proof.
  induction evals as [|evaluation evals IH] using rev_ind; [reflexivity|].
  rewrite append_evaluations_snoc. exact IH.
Qed.

(** [_append_evaluations] leaves the line run's own fields alone. With no
    evaluation to append, [evaluations] stays as it is, [None] included;
    with at least one it is a dictionary in which a name holds the last
    appended evaluation of that name, and otherwise what it held before. An
    evaluation is named by its [run] when it has one and by its [name]
    otherwise. *)
Theorem append_evaluations_keeps_last self evals :
  @LineRun.fields (@LineRun._append_evaluations self evals) = @LineRun.fields self /\
  @LineRun._append_evaluations self [] = self /\
  (evals <> [] ->
   exists d,
     @LineRun.evaluations (@LineRun._append_evaluations self evals) = Some d /\
     forall key,
       d !! key
       = match last (filter (fun e => @LineRun.eval_name e = key) evals) with
         | Some evaluation => Some evaluation
         | None => default ∅ (@LineRun.evaluations self) !! key
         end) /\
  (forall evaluation r,
     LineRun.run (@LineRun.fields evaluation) = Some r ->
     @LineRun.eval_name evaluation = Some r) /\
  (forall evaluation,
     LineRun.run (@LineRun.fields evaluation) = None ->
     @LineRun.eval_name evaluation = AStr <$> LineRun.name (@LineRun.fields evaluation)).
Proof.
  split; [apply append_evaluations_fields|]. split; [reflexivity|].
  split; [|split].
  - induction evals as [|evaluation evals IH] using rev_ind; [contradiction|].
    intros _. rewrite append_evaluations_snoc.
    unfold LineRun.append_evaluation at 1. simpl. eexists. split; [reflexivity|].
    intros key. rewrite filter_app, filter_cons, filter_nil.
    destruct (decide (@LineRun.eval_name evaluation = key)) as [Hkey|Hkey].
    + rewrite last_snoc, Hkey. apply lookup_insert_eq.
    + rewrite app_nil_r, lookup_insert_ne by exact Hkey.
      destruct evals as [|first evals'].
      * reflexivity.
      * destruct IH as (d & Hd & Hlookup); [discriminate|].
        rewrite Hd. simpl. apply Hlookup.
  - intros evaluation r Hrun. unfold LineRun.eval_name. rewrite Hrun. reflexivity.
  - intros evaluation Hrun. unfold LineRun.eval_name. rewrite Hrun. reflexivity.
Qed.
End Evaluations.

Lemma persisted_span_reads_back_witness :
  exists s1 w1,
    @Span._persist sample_python decoded_span empty_world = Ok (s1, w1) /\
    exists row s2 r,
      last (span_rows w1) = Some row /\
      @Span._load_events sample_python (Span._from_orm_object row) w1 = Ok s2 /\
      events s2 = events decoded_span /\
      _external_event_ids s2
      = map AStr (@draws sample_python (length (events decoded_span)) empty_world) /\
      @Span._to_rest_object sample_python s2 = Ok r /\
      RestSpan.events r = events decoded_span /\
      RestSpan.external_event_data_uris r
      = map AStr (@draws sample_python (length (events decoded_span)) empty_world).
Proof.
  do 2 eexists. split; [vm_compute; reflexivity|].
  eapply (@persisted_span_reads_back sample_python decoded_span _ empty_world).
  - split.
    + vm_compute. apply NoDup_cons. split; [apply not_elem_of_nil | apply NoDup_nil_2].
    + repeat constructor. apply not_elem_of_nil.
  - apply Forall_forall. intros event _. apply sample_json_round_trip.
  - vm_compute. reflexivity.
Defined.

Lemma persisted_span_exports_references_witness :
  exists s1 w1,
    @Span._persist sample_python decoded_span empty_world = Ok (s1, w1) /\
    exists row r,
      last (span_rows w1) = Some row /\
      @Span._to_rest_object sample_python (Span._from_orm_object row) = Ok r /\
      RestSpan.external_event_data_uris r
      = map AStr (@draws sample_python (length (events decoded_span)) empty_world) /\
      RestSpan.events r
      = map (fun event => SpanEvent.set_attributes event ∅) (events decoded_span).
Proof.
  do 2 eexists. split; [vm_compute; reflexivity|].
  eapply (@persisted_span_exports_references sample_python decoded_span _ empty_world).
  vm_compute. reflexivity.
Defined.

Lemma persist_keeps_stored_events_witness :
  exists s0 w0 s1 w1,
    @Span._persist sample_python decoded_span empty_world = Ok (s0, w0) /\
    @Span._persist sample_python root_span w0 = Ok (s1, w1) /\
    @Event.get sample_python (AStr "event-0") (event_rows w1) = Ok inputs_event.
Proof.
  do 4 eexists. split; [vm_compute; reflexivity|].
  match goal with
  | |- ?P /\ _ => assert P as Hok by (vm_compute; reflexivity)
  end.
  split; [exact Hok|].
  apply (@persist_keeps_stored_events sample_python _ _ _ _ _ _ Hok).
  vm_compute. reflexivity.
Defined.

Lemma line_run_ids_stay_unique_witness :
  exists w1,
    @persist_each sample_python [child_span; root_span; child_span] empty_world
    = Ok w1 /\
    (forall id, ORMLineRun.rows id (line_runs w1) <= 1)%nat /\
    (forall id, ORMLineRun.rows id (line_runs empty_world)
                <= ORMLineRun.rows id (line_runs w1))%nat.
Proof.
  eexists. split; [vm_compute; reflexivity|].
  apply (@line_run_ids_stay_unique sample_python
           [child_span; root_span; child_span] empty_world).
  - vm_compute. reflexivity.
  - intros id. vm_compute. lia.
Defined.

Lemma root_first_reads_back_witness :
  exists w1,
    @Span._persist_line_run sample_python root_span empty_world = Ok w1 /\
    exists lr row,
      @LineRun._from_root_span sample_python root_span (line_runs empty_world)
      = Ok lr /\
      ORMLineRun.get (LineRun._determine_line_run_id root_span) (line_runs w1)
      = Ok row /\
      @LineRun._from_orm_object row = lr /\
      line_runs w1 = line_runs empty_world ++ [row].
Proof.
  eexists. split; [vm_compute; reflexivity|].
  apply (@root_first_reads_back sample_python root_span empty_world).
  - reflexivity.
  - reflexivity.
  - vm_compute. reflexivity.
Defined.
